(** * Dynamic model-residency manager of the PDF converter pipeline

    A shallow embedding of [vllm/model_manager.py] (the
    [DynamicModelManager]) and of the request handlers of
    [vllm/dynamic_server.py] that drive it, followed by the properties
    of the manager, the task classifier and the HTTP gateway.

    Python objects are mutated in place; here every operation is a
    computation in a small monad that threads the manager, records the
    writes it performs, and distinguishes three ways a call can end:
    it returns, it raises, or it blocks for ever on the manager's lock. *)

From Stdlib Require Import String Ascii ZArith QArith Lia.
From stdpp Require Import base option list gmap strings.

Local Open Scope string_scope.
Local Open Scope list_scope.

(** ** Data model ([model_manager.py]) *)

Inductive ModelState := UNLOADED | LOADING | LOADED | UNLOADING | ERROR.

Inductive TaskType := CONTENT_TRANSFORMATION | TRANSLATION.

#[global] Instance ModelState_eq_dec : EqDecision ModelState.
Proof. solve_decision. Defined.

#[global] Instance TaskType_eq_dec : EqDecision TaskType.
Proof. solve_decision. Defined.

(** [ModelState.value] and [TaskType.value]. *)
Definition ModelState_value (s : ModelState) : string :=
  match s with
  | UNLOADED => "unloaded"
  | LOADING => "loading"
  | LOADED => "loaded"
  | UNLOADING => "unloading"
  | ERROR => "error"
  end.

Definition TaskType_value (t : TaskType) : string :=
  match t with
  | CONTENT_TRANSFORMATION => "content_transformation"
  | TRANSLATION => "translation"
  end.

(** [TaskType(s)]: the enum member whose value is [s]; [None] stands
    for the [ValueError] Python raises for any other string. *)
Definition TaskType_of_value (s : string) : option TaskType :=
  if String.eqb s "content_transformation" then Some CONTENT_TRANSFORMATION
  else if String.eqb s "translation" then Some TRANSLATION
  else None.

(** The [float] fields are carried as the rationals of their decimal
    literals; the manager never computes with them. *)
Record ModelConfig := {
  name : string;
  alias : string;
  task_type : TaskType;
  estimated_vram_gb : Q;
  tensor_parallel_size : Z;
  max_model_len : Z;
  gpu_memory_utilization : Q
}.

(** [AsyncEngineArgs(...)] as [load_model] fills it in. The engine
    handle kept in [self.vllm_engine] is identified with the arguments
    it was built from. *)
Record AsyncEngineArgs := {
  ea_model : string;
  ea_tensor_parallel_size : Z;
  ea_gpu_memory_utilization : Q;
  ea_max_model_len : Z;
  ea_dtype : string;
  ea_trust_remote_code : bool;
  ea_enable_prefix_caching : bool;
  ea_disable_log_stats : bool;
  ea_download_dir : string
}.

(** [DynamicModelManager]. [models] is a Python dict read in insertion
    order by [ensure_model_loaded], hence an association list;
    [model_states] is only read and written by key. [lock_held] is the
    state of [self.lock], a [threading.Lock] (not re-entrant). *)
Record Manager := {
  models : list (string * ModelConfig);
  current_model : option string;
  model_states : gmap string ModelState;
  vllm_engine : option AsyncEngineArgs;
  lock_held : bool
}.

(** What a call does to the manager and to the engine, in program
    order. *)
Inductive Event :=
| EvState (key : string) (st : ModelState)
| EvCurrent (key : option string)
| EvEngineLoad (model : string) (ok : bool)
| EvEngineDrop.

#[global] Instance Event_eq_dec : EqDecision Event.
Proof. solve_decision. Defined.

Record World := { mgr : Manager; trace : list Event }.

(** The part of a call that the repository does not decide: the
    process environment and whether the inference runtime raises when
    an engine is built or dropped. *)
Record Env := {
  HF_HOME : option string;
  engine_ctor_raises : bool;
  engine_release_raises : bool
}.

Inductive Exn :=
| KeyError (key : string)
| EngineError
| AttributeError (msg : string)
| HTTPException (status_code : Z) (detail : string).

(** ** The monad of manager computations *)

Inductive Result (A : Type) :=
| Ok (a : A) (w : World)
| Raise (e : Exn) (w : World)
| Blocked (w : World).
Arguments Ok {A} a w.
Arguments Raise {A} e w.
Arguments Blocked {A} w.

Definition M (A : Type) : Type := World → Result A.

#[global] Instance M_ret : MRet M := λ A a w, Ok a w.

#[global] Instance M_bind : MBind M := λ A B f c w,
  match c w with
  | Ok a w' => f a w'
  | Raise e w' => Raise e w'
  | Blocked w' => Blocked w'
  end.

Definition world_of {A} (r : Result A) : World :=
  match r with Ok _ w | Raise _ w | Blocked w => w end.

Definition get_mgr : M Manager := λ w, Ok (mgr w) w.

Definition raise {A} (e : Exn) : M A := λ w, Raise e w.

Definition emit (e : Event) : M unit := λ w,
  Ok tt {| mgr := mgr w; trace := trace w ++ [e] |}.

Definition modify (f : Manager → Manager) : M unit := λ w,
  Ok tt {| mgr := f (mgr w); trace := trace w |}.

(** [try: body  except Exception as e: handler e] *)
Definition try_except {A} (body : M A) (handler : Exn → M A) : M A := λ w,
  match body w with
  | Ok a w' => Ok a w'
  | Raise e w' => handler e w'
  | Blocked w' => Blocked w'
  end.

Definition set_lock (b : bool) (m : Manager) : Manager :=
  {| models := models m; current_model := current_model m;
     model_states := model_states m; vllm_engine := vllm_engine m;
     lock_held := b |}.

(** [with self.lock: body]. Acquiring a [threading.Lock] that is held
    blocks until some other thread releases it; the holder here is the
    caller itself, so the call never proceeds. The lock is released on
    every exit from the body, return or exception. *)
Definition with_lock {A} (body : M A) : M A := λ w,
  if lock_held (mgr w) then Blocked w
  else
    match body {| mgr := set_lock true (mgr w); trace := trace w |} with
    | Ok a w' => Ok a {| mgr := set_lock false (mgr w'); trace := trace w' |}
    | Raise e w' => Raise e {| mgr := set_lock false (mgr w'); trace := trace w' |}
    | Blocked w' => Blocked w'
    end.

(** [self.model_states[key] = st] *)
Definition set_state (key : string) (st : ModelState) : M unit :=
  modify (λ m, {| models := models m; current_model := current_model m;
                  model_states := <[key := st]> (model_states m);
                  vllm_engine := vllm_engine m; lock_held := lock_held m |});;
  emit (EvState key st).

(** [self.model_states[key]], a [KeyError] when the key is missing. *)
Definition read_state (key : string) : M ModelState :=
  m ← get_mgr;
  match model_states m !! key with
  | Some st => mret st
  | None => raise (KeyError key)
  end.

(** [self.current_model = key] *)
Definition set_current (key : option string) : M unit :=
  modify (λ m, {| models := models m; current_model := key;
                  model_states := model_states m;
                  vllm_engine := vllm_engine m; lock_held := lock_held m |});;
  emit (EvCurrent key).

(** [self.vllm_engine = e] *)
Definition set_engine (e : option AsyncEngineArgs) : M unit :=
  modify (λ m, {| models := models m; current_model := current_model m;
                  model_states := model_states m;
                  vllm_engine := e; lock_held := lock_held m |}).

(** Truth value of an [Optional[str]]: [None] and the empty string are
    false. *)
Definition truthy (o : option string) : bool :=
  match o with
  | Some s => negb (String.eqb s "")
  | None => false
  end.

(** [self.models[key]] / [key in self.models] *)
Fixpoint lookup_model (key : string) (ms : list (string * ModelConfig))
  : option ModelConfig :=
  match ms with
  | [] => None
  | (k, c) :: ms' => if String.eqb k key then Some c else lookup_model key ms'
  end.

(** ** [DynamicModelManager] *)

Definition content_model : ModelConfig :=
  {| name := "Qwen/Qwen2.5-VL-32B-Instruct";
     alias := "content-transformer";
     task_type := CONTENT_TRANSFORMATION;
     estimated_vram_gb := 32 # 1;
     tensor_parallel_size := 2;
     max_model_len := 8192;
     gpu_memory_utilization := 9 # 10 |}.

Definition translation_model : ModelConfig :=
  {| name := "Qwen/Qwen2.5-32B-Instruct";
     alias := "translator";
     task_type := TRANSLATION;
     estimated_vram_gb := 30 # 1;
     tensor_parallel_size := 2;
     max_model_len := 8192;
     gpu_memory_utilization := 9 # 10 |}.

(** [_register_models]: the registry and one [UNLOADED] entry per key. *)
Definition registered_models : list (string * ModelConfig) :=
  [("content_transformation", content_model);
   ("translation", translation_model)].

Definition register_states (ms : list (string * ModelConfig))
  : gmap string ModelState :=
  foldl (λ st kc, <[fst kc := UNLOADED]> st) ∅ ms.

(** [DynamicModelManager.__init__] *)
Definition init_manager : Manager :=
  {| models := registered_models;
     current_model := None;
     model_states := register_states registered_models;
     vllm_engine := None;
     lock_held := false |}.

Definition init_world : World := {| mgr := init_manager; trace := [] |}.

(** The body of [unload_current_model] under the lock, for the
    resident key [key]: between the truth test on [self.current_model]
    and the writes nothing else runs, so every read of
    [self.current_model] in the body yields [key]. No statement of the
    body raises in the source ([del] does not, and
    [_cleanup_gpu_memory] swallows its own exceptions);
    [engine_release_raises] is an injected fault, placed where the
    engine handle is dropped, that lets the [except] arm be taken. *)
Definition unload_locked (env : Env) (key : string) : M bool :=
  try_except
    (set_state key UNLOADING;;
     m ← get_mgr;
     (match vllm_engine m with
      | Some _ =>
          if engine_release_raises env then raise EngineError
          else emit EvEngineDrop;; set_engine None
      | None => mret tt
      end);;
     set_state key UNLOADED;;
     set_current None;;
     mret true)
    (λ _, mret false).

(** [async def unload_current_model(self) -> bool] *)
Definition unload_current_model (env : Env) : M bool :=
  m ← get_mgr;
  match current_model m with
  | Some key =>
      if truthy (Some key) then with_lock (unload_locked env key)
      else mret true
  | None => mret true
  end.

Definition engine_args (env : Env) (c : ModelConfig) : AsyncEngineArgs :=
  {| ea_model := name c;
     ea_tensor_parallel_size := tensor_parallel_size c;
     ea_gpu_memory_utilization := gpu_memory_utilization c;
     ea_max_model_len := max_model_len c;
     ea_dtype := "bfloat16";
     ea_trust_remote_code := true;
     ea_enable_prefix_caching := true;
     ea_disable_log_stats := false;
     ea_download_dir := default "/models/huggingface" (HF_HOME env) |}.

(** [AsyncLLMEngine.from_engine_args(engine_args)] (with the imports
    that precede it): the runtime either hands back an engine or
    raises. *)
Definition from_engine_args (env : Env) (args : AsyncEngineArgs)
  : M AsyncEngineArgs :=
  if engine_ctor_raises env
  then emit (EvEngineLoad (ea_model args) false);; raise EngineError
  else emit (EvEngineLoad (ea_model args) true);; mret args.

(** The body of [load_model] under the lock; [unload] is the
    computation run for [await self.unload_current_model()]. *)
Definition load_locked (unload : M bool) (env : Env)
    (model_key : string) (model_config : ModelConfig) : M bool :=
  try_except
    (m ← get_mgr;
     already ← (if bool_decide (current_model m = Some model_key)
                then st ← read_state model_key;
                     mret (bool_decide (st = LOADED))
                else mret false);
     if already : bool then mret true
     else
       set_state model_key LOADING;;
       m ← get_mgr;
       unloaded ← (if truthy (current_model m)
                      && negb (bool_decide (current_model m = Some model_key))
                   then unload
                   else mret true);
       if negb unloaded then mret false
       else
         engine ← from_engine_args env (engine_args env model_config);
         set_engine (Some engine);;
         set_current (Some model_key);;
         set_state model_key LOADED;;
         mret true)
    (λ _, set_state model_key ERROR;; mret false).

(** [load_model] with the nested call left open. *)
Definition load_model_with (unload : M bool) (env : Env)
    (model_key : string) : M bool :=
  m ← get_mgr;
  match lookup_model model_key (models m) with
  | None => mret false
  | Some model_config => with_lock (load_locked unload env model_key model_config)
  end.

(** [async def load_model(self, model_key: str) -> bool] *)
Definition load_model (env : Env) (model_key : string) : M bool :=
  load_model_with (unload_current_model env) env model_key.

(** The loop of [ensure_model_loaded]: the first key, in registry
    order, whose configuration serves [t]. *)
Fixpoint find_model_key (t : TaskType) (ms : list (string * ModelConfig))
  : option string :=
  match ms with
  | [] => None
  | (k, c) :: ms' =>
      if bool_decide (task_type c = t) then Some k else find_model_key t ms'
  end.

(** [async def ensure_model_loaded(self, task_type: TaskType) -> bool] *)
Definition ensure_model_loaded (env : Env) (t : TaskType) : M bool :=
  m ← get_mgr;
  match find_model_key t (models m) with
  | Some model_key =>
      if negb (truthy (Some model_key)) then mret false
      else if negb (bool_decide (current_model m = Some model_key))
              || negb (bool_decide (model_states m !! model_key = Some LOADED))
      then load_model env model_key
      else mret true
  | None => mret false
  end.

(** [initialize_model_manager]: the start-up preload. *)
Definition initialize_model_manager (env : Env) : M bool :=
  load_model env "content_transformation".

Definition no_faults : Env :=
  {| HF_HOME := None; engine_ctor_raises := false;
     engine_release_raises := false |}.

(** ** Task classifier and HTTP gateway ([dynamic_server.py]) *)

Record ChatMessage := { role : string; content : string }.

(** [ChatCompletionRequest]; the [float] fields as rationals. *)
Record ChatCompletionRequest := {
  rq_model : string;
  rq_messages : list ChatMessage;
  rq_temperature : Q;
  rq_max_tokens : Z;
  rq_top_p : Q;
  rq_top_k : Z;
  rq_stream : bool;
  rq_task_type : option string
}.

Record ModelSwapRequest := { rq_model_key : string }.

Record SamplingParams := {
  sp_temperature : Q;
  sp_max_tokens : Z;
  sp_top_p : Q;
  sp_top_k : Z;
  sp_stop : list string
}.

(** What the engine's [generate] stream ends with. *)
Record CompletionOutput := { text : string; token_ids : list Z }.

Record RequestOutput := {
  outputs : list CompletionOutput;
  prompt_token_ids : option (list Z)
}.

Inductive GenOutcome :=
| GenRaises
| GenFinal (final_output : option RequestOutput).

(** The success body of [swap_model] (the VRAM probe left out). *)
Record SwapResponse := {
  sw_status : string;
  sw_message : string;
  sw_current_model : option string
}.

(** The body of a chat completion. *)
Record ChatCompletionResponse := {
  cc_model : string;
  cc_content : string;
  cc_task_type : string;
  cc_model_key : option string
}.

(** [needle in hay] on Python strings. Strings are kept as their UTF-8
    bytes; UTF-8 is self-synchronising, so one well-formed string
    occurs in another as a run of code points exactly when it occurs
    as a run of bytes. *)
Fixpoint str_in (needle hay : string) : bool :=
  String.prefix needle hay
  || match hay with
     | EmptyString => false
     | String _ hay' => str_in needle hay'
     end.

(** [sum(1 for keyword in keywords if keyword in text)] *)
Fixpoint keyword_score (keywords : list string) (text : string) : Z :=
  match keywords with
  | [] => 0
  | keyword :: rest =>
      ((if str_in keyword text then 1 else 0) + keyword_score rest text)%Z
  end.

Definition content_keywords : list string :=
  ["преобразуй"; "markdown"; "структура"; "таблица";
   "pdf"; "документ"; "извлечение"; "форматирование"].

Definition translation_keywords : list string :=
  ["переведи"; "translate"; "перевод"; "translation";
   "русский"; "english"; "中文"; "язык"; "language"].

Definition newline : string := String "010"%char EmptyString.

(** The Qwen chat template of [create_chat_completion]; messages with
    any other role are left out. *)
Definition prompt_part (message : ChatMessage) : option string :=
  if String.eqb (role message) "system"
  then Some ("<|im_start|>system" +:+ newline +:+ content message +:+ "<|im_end|>")
  else if String.eqb (role message) "user"
  then Some ("<|im_start|>user" +:+ newline +:+ content message +:+ "<|im_end|>")
  else if String.eqb (role message) "assistant"
  then Some ("<|im_start|>assistant" +:+ newline +:+ content message +:+ "<|im_end|>")
  else None.

Definition format_prompt (messages : list ChatMessage) : string :=
  String.concat newline
    (omap prompt_part messages ++ ["<|im_start|>assistant" +:+ newline]).

(** [repr] of a list of keys that hold no quote or escape character. *)
Definition keys_repr (keys : list string) : string :=
  "[" +:+ String.concat ", " (map (λ k, "'" +:+ k +:+ "'") keys) +:+ "]".

Section Gateway.

(** Supplied by the Python runtime and the inference engine:
    [str.lower], [str(e)] of a caught exception, and the outcome of
    [engine.generate] for a prompt. *)
Variable lower : string → string.
Variable exn_str : Exn → string.
Variable engine_generate :
  AsyncEngineArgs → string → SamplingParams → GenOutcome.

(** [" ".join([msg.content.lower() for msg in messages])] *)
Definition combined_text (messages : list ChatMessage) : string :=
  String.concat " " (map (λ msg, lower (content msg)) messages).

(** [determine_task_type_from_messages]; nothing in the guarded body
    can raise on validated messages, so the [except] arm is not
    taken. *)
Definition determine_task_type_from_messages
    (messages : list ChatMessage) : TaskType :=
  let text := combined_text messages in
  let content_score := keyword_score content_keywords text in
  let translation_score := keyword_score translation_keywords text in
  if (content_score <? translation_score)%Z
  then TRANSLATION
  else CONTENT_TRANSFORMATION.

(** The first lines of [create_chat_completion]: the explicit hint
    when it names a task type, the classifier otherwise. *)
Definition resolve_task_type (request : ChatCompletionRequest) : TaskType :=
  let hinted :=
    match rq_task_type request with
    | Some s => if truthy (Some s) then TaskType_of_value s else None
    | None => None
    end in
  match hinted with
  | Some t => t
  | None => determine_task_type_from_messages (rq_messages request)
  end.

Definition sampling_params (request : ChatCompletionRequest) : SamplingParams :=
  {| sp_temperature := rq_temperature request;
     sp_max_tokens := rq_max_tokens request;
     sp_top_p := rq_top_p request;
     sp_top_k := rq_top_k request;
     sp_stop := ["<|im_end|>"] |}.

(** [model_manager.vllm_engine.generate(...)] drained to its last
    item. *)
Definition generate (engine : AsyncEngineArgs) (prompt : string)
    (params : SamplingParams) : M (option RequestOutput) :=
  match engine_generate engine prompt params with
  | GenRaises => raise EngineError
  | GenFinal final_output => mret final_output
  end.

(** [create_chat_completion]. A raised [HTTPException] is the HTTP
    response FastAPI sends. The token count reads [token_ids] off
    the list [final_output.outputs], which raises on every run that
    gets that far, so the response assembly after it is never
    reached. *)
Definition create_chat_completion (env : Env)
    (request : ChatCompletionRequest) : M ChatCompletionResponse :=
  try_except
    (let task_type := resolve_task_type request in
     model_ready ← ensure_model_loaded env task_type;
     if negb model_ready
     then raise (HTTPException 503
                   ("Не удалось загрузить модель для задачи "
                    +:+ TaskType_value task_type))
     else
       m ← get_mgr;
       match vllm_engine m with
       | None => raise (HTTPException 503 "vLLM engine недоступен")
       | Some engine =>
           final_output ← generate engine
                            (format_prompt (rq_messages request))
                            (sampling_params request);
           match final_output with
           | None => raise (HTTPException 500 "No output generated")
           | Some out =>
               match outputs out with
               | [] => raise (HTTPException 500 "No output generated")
               | _ :: _ =>
                   raise (AttributeError
                            "'list' object has no attribute 'token_ids'")
               end
           end
       end)
    (λ e, raise (HTTPException 500 ("Ошибка генерации: " +:+ exn_str e))).

(** [swap_model] *)
Definition swap_model (env : Env) (request : ModelSwapRequest)
    : M SwapResponse :=
  try_except
    (m ← get_mgr;
     match lookup_model (rq_model_key request) (models m) with
     | None =>
         raise (HTTPException 400
                  ("Неизвестная модель: " +:+ rq_model_key request
                   +:+ ". Доступны: " +:+ keys_repr (map fst (models m))))
     | Some _ =>
         success ← load_model env (rq_model_key request);
         if success : bool
         then m' ← get_mgr;
              mret {| sw_status := "success";
                      sw_message := "Модель " +:+ rq_model_key request
                                    +:+ " успешно загружена";
                      sw_current_model := current_model m' |}
         else raise (HTTPException 503
                       ("Не удалось загрузить модель: "
                        +:+ rq_model_key request))
     end)
    (λ e, raise (HTTPException 500 (exn_str e))).

End Gateway.

(** ASCII lower-casing, the restriction of [str.lower] to texts whose
    cased letters are all ASCII; bytes of multi-byte code points are
    left as they are. *)
Definition ascii_lower_char (c : ascii) : ascii :=
  let n := nat_of_ascii c in
  if (65 <=? n)%nat && (n <=? 90)%nat then ascii_of_nat (n + 32) else c.

Fixpoint ascii_lower (s : string) : string :=
  match s with
  | EmptyString => EmptyString
  | String c s' => String (ascii_lower_char c) (ascii_lower s')
  end.

(** ** Sequences of manager calls *)

Inductive Call :=
| CallLoad (model_key : string)
| CallUnload
| CallEnsure (t : TaskType).

Definition run_call (env : Env) (c : Call) : M bool :=
  match c with
  | CallLoad model_key => load_model env model_key
  | CallUnload => unload_current_model env
  | CallEnsure t => ensure_model_loaded env t
  end.

(** The worlds the manager can be in after any number of calls, each
    under an environment of its own. A call that blocks leaves the
    world as it stood when it blocked. *)
Inductive reachable : World → Prop :=
| reach_init : reachable init_world
| reach_call w env c : reachable w → reachable (world_of (run_call env c w)).

Definition loaded (m : Manager) (key : string) : Prop :=
  model_states m !! key = Some LOADED.

Definition at_most_one_loaded (m : Manager) : Prop :=
  ∀ k1 k2, loaded m k1 → loaded m k2 → k1 = k2.

(** Only the current model can be in state [LOADED]. *)
Definition loaded_is_current (m : Manager) : Prop :=
  ∀ k, loaded m k → current_model m = Some k.

(** What every call keeps true of the manager: a [LOADED] key is the
    current one, the current key is never the empty string, and the
    registry holds no empty key. *)
Record residency_ok (m : Manager) : Prop := {
  res_loaded : loaded_is_current m;
  res_current : current_model m ≠ Some "";
  res_registry : lookup_model "" (models m) = None
}.

(** The manager with [model_states[key]] overwritten. *)
Definition mark (key : string) (st : ModelState) (m : Manager) : Manager :=
  {| models := models m; current_model := current_model m;
     model_states := <[key := st]> (model_states m);
     vllm_engine := vllm_engine m; lock_held := lock_held m |}.

(** The server once its start-up preload has succeeded. *)
Definition after_startup : World :=
  world_of (initialize_model_manager no_faults init_world).

(** The world in which [load_model] for [B] makes its nested call to
    [unload_current_model]: lock taken, [B] marked [LOADING]. *)
Definition swap_point (B : string) (w : World) : World :=
  {| mgr := set_lock true (mark B LOADING (mgr w));
     trace := trace w ++ [EvState B LOADING] |}.

Definition release_fails : Env :=
  {| HF_HOME := None; engine_ctor_raises := false;
     engine_release_raises := true |}.

Definition ctor_fails : Env :=
  {| HF_HOME := None; engine_ctor_raises := true;
     engine_release_raises := false |}.

(** Preload, explicit unload, a failed load of the translation model,
    then a successful one. *)
Definition swapped_over : World :=
  world_of (run_call no_faults (CallEnsure TRANSLATION)
    (world_of (run_call ctor_fails (CallLoad "translation")
      (world_of (run_call no_faults CallUnload
        (world_of (run_call no_faults (CallLoad "content_transformation")
          init_world))))))).

Definition is_engine_load (e : Event) : bool :=
  match e with EvEngineLoad _ _ => true | _ => false end.

(** How many times a trace calls into the engine constructor. *)
Definition engine_loads (tr : list Event) : nat :=
  length (List.filter is_engine_load tr).

(** A manager whose registry serves content transformation only. *)
Definition content_only : World :=
  {| mgr := {| models := [("content_transformation", content_model)];
               current_model := Some "content_transformation";
               model_states := {["content_transformation" := LOADED]};
               vllm_engine := Some (engine_args no_faults content_model);
               lock_held := false |};
     trace := [] |}.

Definition without_hint (request : ChatCompletionRequest)
  : ChatCompletionRequest :=
  {| rq_model := rq_model request; rq_messages := rq_messages request;
     rq_temperature := rq_temperature request;
     rq_max_tokens := rq_max_tokens request; rq_top_p := rq_top_p request;
     rq_top_k := rq_top_k request; rq_stream := rq_stream request;
     rq_task_type := None |}.

(** A one-message request with the default sampling fields. *)
Definition hinted_request (hint : option string) (s : string)
  : ChatCompletionRequest :=
  {| rq_model := "auto"; rq_messages := [{| role := "user"; content := s |}];
     rq_temperature := 1 # 10; rq_max_tokens := 4096; rq_top_p := 9 # 10;
     rq_top_k := 50; rq_stream := false; rq_task_type := hint |}.

(** [needle] occurs in [hay]: some text before it, some text after. *)
Definition occurs (needle hay : string) : Prop :=
  ∃ pre post, hay = pre +:+ needle +:+ post.

(** ** Read-only endpoints and the lifespan hook *)

(** [ModelState.name]: the identifier of the member, as opposed to its
    value. *)
Definition ModelState_name (s : ModelState) : string :=
  match s with
  | UNLOADED => "UNLOADED"
  | LOADING => "LOADING"
  | LOADED => "LOADED"
  | UNLOADING => "UNLOADING"
  | ERROR => "ERROR"
  end.

(** The dict [get_status] returns. [get_available_vram_gb] asks the
    GPU runtime; the figure it hands back (a finite float, hence a
    rational) is an argument here. *)
Record Status := {
  st_current_model : option string;
  st_model_states : gmap string string;
  st_available_vram_gb : Q;
  st_models_registered : Z
}.

(** [get_status] *)
Definition get_status (vram : Q) (m : Manager) : Status :=
  {| st_current_model := current_model m;
     st_model_states := ModelState_value <$> model_states m;
     st_available_vram_gb := vram;
     st_models_registered := Z.of_nat (length (models m)) |}.

(** The JSON body and status code of [health_check] (the timestamp
    left out). *)
Record HealthResponse := {
  h_status : string;
  h_current_model : option string;
  h_available_vram_gb : Q;
  h_version : string;
  h_status_code : Z
}.

(** [health_check]: [current_model is not None and vram > 2.0]. *)
Definition health_check (vram : Q) (m : Manager) : HealthResponse :=
  let status := get_status vram m in
  let is_healthy :=
    bool_decide (current_model m ≠ None)
    && negb (Qle_bool (st_available_vram_gb status) 2) in
  {| h_status := if is_healthy then "healthy" else "unhealthy";
     h_current_model := st_current_model status;
     h_available_vram_gb := st_available_vram_gb status;
     h_version := "v2.0-dynamic";
     h_status_code := if is_healthy then 200 else 503 |}.

(** One entry of [list_models] (the creation time left out). *)
Record ModelCard := {
  mc_id : string;
  mc_object : string;
  mc_owned_by : string;
  mc_key : string;
  mc_alias : string;
  mc_task_type : string;
  mc_state : string
}.

Definition model_card (model_key : string) (config : ModelConfig)
    (st : ModelState) : ModelCard :=
  {| mc_id := name config;
     mc_object := "model";
     mc_owned_by := "pdf-converter-v2";
     mc_key := model_key;
     mc_alias := alias config;
     mc_task_type := TaskType_value (task_type config);
     mc_state := ModelState_value st |}.

(** The two loops of [list_models] over [models.items()]; the read of
    [model_states[model_key]] raises on a missing key. *)
Fixpoint model_cards (ms : list (string * ModelConfig)) : M (list ModelCard) :=
  match ms with
  | [] => mret []
  | (model_key, config) :: rest =>
      st ← read_state model_key;
      cards ← model_cards rest;
      mret (model_card model_key config st :: cards)
  end.

(** [list_models] *)
Definition list_models : M (list ModelCard) :=
  m ← get_mgr;
  model_cards (models m).

Definition dquote : string := String "034"%char EmptyString.

(** One gauge line of [metrics]. *)
Definition gauge_line (model_key : string) (config : ModelConfig)
    (is_loaded : Z) : string :=
  "vllm_model_loaded{model_key=" +:+ dquote +:+ model_key +:+ dquote
  +:+ ",model_name=" +:+ dquote +:+ name config +:+ dquote +:+ "} "
  +:+ (if (is_loaded =? 1)%Z then "1" else "0").

(** The loop of [metrics]: the test is on [.name], compared with the
    lower-case text. *)
Fixpoint gauge_lines (ms : list (string * ModelConfig)) : M (list string) :=
  match ms with
  | [] => mret []
  | (model_key, config) :: rest =>
      st ← read_state model_key;
      let is_loaded :=
        if String.eqb (ModelState_name st) "loaded" then 1%Z else 0%Z in
      lines ← gauge_lines rest;
      mret (gauge_line model_key config is_loaded :: lines)
  end.

(** [metrics]; [vram_text] is the runtime's rendering of the VRAM
    figure. *)
Definition metrics (vram_text : string) : M string :=
  m ← get_mgr;
  lines ← gauge_lines (models m);
  mret (String.concat newline
          (["# HELP vllm_available_vram_gb Available VRAM in GB";
            "# TYPE vllm_available_vram_gb gauge";
            "vllm_available_vram_gb " +:+ vram_text;
            "";
            "# HELP vllm_model_loaded Current model loaded (1=loaded, 0=not loaded)";
            "# TYPE vllm_model_loaded gauge"] ++ lines)).

(** The shutdown half of [lifespan]: unload whatever is resident and
    ignore the outcome. *)
Definition lifespan_shutdown (env : Env) : M unit :=
  m ← get_mgr;
  if truthy (current_model m)
  then unload_current_model env;; mret tt
  else mret tt.

(** The roles the chat template knows. *)
Definition known_role (message : ChatMessage) : bool :=
  String.eqb (role message) "system"
  || String.eqb (role message) "user"
  || String.eqb (role message) "assistant".

(** The engine handle goes with the current model: none when no model
    is current, otherwise the engine built from the current key's
    configuration. *)
Definition engine_matches_current (m : Manager) : Prop :=
  match current_model m with
  | None => vllm_engine m = None
  | Some key =>
      ∃ cfg env, lookup_model key (models m) = Some cfg
                 ∧ vllm_engine m = Some (engine_args env cfg)
  end.

(** The registry is the one [_register_models] built and the state
    map has an entry for each of its keys and for no other. *)
Definition states_cover_registry (m : Manager) : Prop :=
  models m = registered_models
  ∧ dom (model_states m) = ({["content_transformation"; "translation"]} : gset string).

(** Both invariants of the reachable worlds together. *)
Definition well_formed (m : Manager) : Prop :=
  engine_matches_current m ∧ states_cover_registry m.

(** The keyword holds a space. *)
Fixpoint has_space (s : string) : bool :=
  match s with
  | EmptyString => false
  | String c s' => Ascii.eqb c " " || has_space s'
  end.

(** A keyword the join cannot manufacture: not empty, no space. *)
Definition plain_keyword (kw : string) : bool :=
  negb (String.eqb kw "") && negb (has_space kw).

Definition user_says (s : string) : ChatMessage :=
  {| role := "user"; content := s |}.

(** The world a swap leaves behind: blocked, with the lock held. *)
Definition wedged : World :=
  world_of (load_model no_faults "translation" after_startup).

(** The preloaded model after an unload that the runtime failed. *)
Definition half_unloaded : World :=
  world_of (unload_current_model release_fails after_startup).


(** The exception the body of [create_chat_completion] ends with once
    the model is ready, read off the statements after
    [ensure_model_loaded]. *)
Definition generation_error
    (engine_generate : AsyncEngineArgs → string → SamplingParams → GenOutcome)
    (request : ChatCompletionRequest) (m : Manager) : Exn :=
  match vllm_engine m with
  | None => HTTPException 503 "vLLM engine недоступен"
  | Some engine =>
      match engine_generate engine (format_prompt (rq_messages request))
              {| sp_temperature := rq_temperature request;
                 sp_max_tokens := rq_max_tokens request;
                 sp_top_p := rq_top_p request;
                 sp_top_k := rq_top_k request;
                 sp_stop := ["<|im_end|>"] |} with
      | GenRaises => EngineError
      | GenFinal None => HTTPException 500 "No output generated"
      | GenFinal (Some out) =>
          match outputs out with
          | [] => HTTPException 500 "No output generated"
          | _ :: _ => AttributeError "'list' object has no attribute 'token_ids'"
          end
      end
  end.

(** * Properties *)

(** ** Evaluating manager computations *)

Ltac run_monad :=
  cbv beta iota zeta delta
    [mbind mret M_bind M_ret get_mgr raise emit modify try_except with_lock
     set_state read_state set_current set_engine set_lock world_of mark
     mgr trace models current_model model_states vllm_engine lock_held
     from_engine_args negb andb orb] in *.

(** Follow every branch of a computation run on a world given by its
    fields. *)
Ltac split_paths :=
  repeat (run_monad;
          match goal with
          | |- context [match ?x with _ => _ end] =>
              lazymatch x with
              | context [match _ with _ => _ end] => fail
              | _ => destruct x eqn:?
              end
          end);
  run_monad.

Lemma truthy_true o : truthy o = true ↔ ∃ k, o = Some k ∧ k ≠ "".
Proof.
  destruct o as [k|]; cbn.
  - rewrite negb_true_iff, String.eqb_neq. split.
    + intros Hk. exists k. auto.
    + intros (k' & [= <-] & Hk). exact Hk.
  - split; [discriminate | intros (k & [=] & _)].
Qed.

Lemma truthy_false o : truthy o = false ↔ o = None ∨ o = Some "".
Proof.
  destruct o as [k|]; cbn.
  - rewrite negb_false_iff, String.eqb_eq. split.
    + intros ->. auto.
    + intros [[=] | [= ->]]. reflexivity.
  - split; auto.
Qed.

Ltac reflect_tests :=
  repeat match goal with
  | H : bool_decide _ = true |- _ => apply bool_decide_eq_true in H
  | H : bool_decide _ = false |- _ => apply bool_decide_eq_false in H
  | H : truthy _ = true |- _ => apply truthy_true in H; destruct H as (? & ? & ?)
  | H : truthy _ = false |- _ => apply truthy_false in H; destruct H
  | H : negb _ = true |- _ => apply negb_true_iff in H
  | H : negb _ = false |- _ => apply negb_false_iff in H
  | H : (_ =? _)%string = true |- _ => apply String.eqb_eq in H
  | H : (_ =? _)%string = false |- _ => apply String.eqb_neq in H
  end.

Ltac eval_paths :=
  split_paths; reflect_tests; simplify_eq; try (reflexivity || congruence).

Example startup_loads_content :
  initialize_model_manager no_faults init_world
  = Ok true
      {| mgr := {| models := registered_models;
                   current_model := Some "content_transformation";
                   model_states :=
                     <["content_transformation" := LOADED]>
                       (register_states registered_models);
                   vllm_engine := Some (engine_args no_faults content_model);
                   lock_held := false |};
         trace := [EvState "content_transformation" LOADING;
                   EvEngineLoad "Qwen/Qwen2.5-VL-32B-Instruct" true;
                   EvCurrent (Some "content_transformation");
                   EvState "content_transformation" LOADED] |}.
Proof. vm_compute. reflexivity. Qed.

(** ** The residency invariant *)

Lemma loaded_is_current_one m : loaded_is_current m → at_most_one_loaded m.
Proof.
  intros H k1 k2 H1 H2. apply H in H1, H2. congruence.
Qed.

Ltac residency_fields Hl :=
  split; cbn in *;
  [ let k := fresh "k" in
    let Hk := fresh "Hk" in
    intros k; unfold loaded; cbn; rewrite ?lookup_insert;
    repeat case_decide; try congruence;
    intros Hk; apply Hl in Hk; cbn in Hk; congruence
  | congruence
  | assumption ].

Ltac solve_residency Hinv :=
  let Hl := fresh "Hl" in
  let Hc := fresh "Hc" in
  let Hr := fresh "Hr" in
  destruct Hinv as [Hl Hc Hr]; reflect_tests; simplify_eq;
  residency_fields Hl.

Lemma unload_keeps_residency env w :
  residency_ok (mgr w) →
  residency_ok (mgr (world_of (unload_current_model env w))).
Proof.
  destruct w as [[ms cur sts eng lk] tr].
  intros Hinv. unfold unload_current_model, unload_locked.
  split_paths; try assumption; solve_residency Hinv.
Qed.

Lemma load_keeps_residency env key w :
  residency_ok (mgr w) →
  residency_ok (mgr (world_of (load_model env key w))).
Proof.
  destruct w as [[ms cur sts eng lk] tr].
  intros Hinv.
  unfold load_model, load_model_with, load_locked,
    unload_current_model, unload_locked.
  split_paths; try assumption; solve_residency Hinv.
Qed.

Lemma ensure_keeps_residency env t w :
  residency_ok (mgr w) →
  residency_ok (mgr (world_of (ensure_model_loaded env t w))).
Proof.
  intros Hinv. unfold ensure_model_loaded.
  destruct w as [m tr].
  cbv beta iota zeta delta [mbind mret M_bind M_ret get_mgr mgr].
  destruct (find_model_key t (models m)) as [k|]; [|exact Hinv].
  destruct (negb (truthy (Some k))); [exact Hinv|].
  destruct (_ || _); [apply load_keeps_residency; exact Hinv | exact Hinv].
Qed.

Lemma init_residency_ok : residency_ok init_manager.
Proof.
  split; [| discriminate | reflexivity].
  intros k Hk. unfold loaded, init_manager, register_states in Hk. cbn in Hk.
  rewrite !lookup_insert in Hk. repeat case_decide; discriminate.
Qed.

Lemma reachable_residency_ok w : reachable w → residency_ok (mgr w).
Proof.
  induction 1 as [|w env c _ IH].
  - exact init_residency_ok.
  - destruct c; cbn [run_call];
      auto using unload_keeps_residency, load_keeps_residency,
        ensure_keeps_residency.
Qed.

(** C1. In every world reachable from the freshly initialised manager
    by [load_model], [unload_current_model] and [ensure_model_loaded]
    calls, whatever the engine does in each of them, at most one model
    key is in state [LOADED]. *)
Theorem capacity_invariant w : reachable w → at_most_one_loaded (mgr w).
Proof.
  intros Hreach. apply loaded_is_current_one.
  apply reachable_residency_ok, Hreach.
Qed.

Lemma capacity_invariant_witness :
  reachable swapped_over ∧ at_most_one_loaded (mgr swapped_over).
Proof.
  assert (reachable swapped_over) as H
    by (unfold swapped_over; repeat apply reach_call; apply reach_init).
  split; [exact H | exact (capacity_invariant swapped_over H)].
Defined.

Example swapped_over_states :
  current_model (mgr swapped_over) = Some "translation"
  ∧ map_to_list (model_states (mgr swapped_over))
    = [("content_transformation", UNLOADED); ("translation", LOADED)]
  ∧ lock_held (mgr swapped_over) = false.
Proof. vm_compute. auto. Qed.

(** ** The swap path and the lock *)

Lemma swap_blocks env w A B cfg :
  lock_held (mgr w) = false →
  current_model (mgr w) = Some A → A ≠ "" → A ≠ B →
  lookup_model B (models (mgr w)) = Some cfg →
  load_model env B w
  = Blocked {| mgr := set_lock true (mark B LOADING (mgr w));
               trace := trace w ++ [EvState B LOADING] |}.
Proof.
  destruct w as [[ms cur sts eng lk] tr]. cbn.
  intros -> -> HA HAB Hcfg.
  unfold load_model, load_model_with, load_locked, unload_current_model.
  eval_paths.
Qed.

(** C3, on the code. With the preloaded content model resident, a
    request for the translation model does not return: [load_model]
    holds the lock while it calls [unload_current_model], which waits
    for the same lock. The call stays blocked with the lock held and
    the translation key in [LOADING], whatever the engine would do. *)
Theorem swap_blocks_on_lock env :
  ensure_model_loaded env TRANSLATION after_startup
  = Blocked {| mgr := set_lock true (mark "translation" LOADING (mgr after_startup));
               trace := trace after_startup ++ [EvState "translation" LOADING] |}.
Proof. vm_compute. reflexivity. Qed.

(** C4, on the code. In that swap the only state change is the
    translation key entering [LOADING]: the content model never leaves
    [LOADED] and the translation model never reaches it. *)
Theorem swap_never_evicts env :
  let r := ensure_model_loaded env TRANSLATION after_startup in
  (∃ w, r = Blocked w)
  ∧ trace (world_of r) = trace after_startup ++ [EvState "translation" LOADING]
  ∧ model_states (mgr (world_of r)) !! "content_transformation" = Some LOADED
  ∧ model_states (mgr (world_of r)) !! "translation" = Some LOADING.
Proof.
  cbv zeta. rewrite swap_blocks_on_lock. cbn [world_of mgr trace].
  split; [eauto|]. split; [reflexivity|]. split; vm_compute; reflexivity.
Qed.

(** ** Load failures *)

Lemma unload_success env w A w1 :
  lock_held (mgr w) = false →
  current_model (mgr w) = Some A → A ≠ "" →
  unload_current_model env w = Ok true w1 →
  current_model (mgr w1) = None
  ∧ lock_held (mgr w1) = false
  ∧ models (mgr w1) = models (mgr w)
  ∧ model_states (mgr w1) = <[A := UNLOADED]> (<[A := UNLOADING]> (model_states (mgr w))).
Proof.
  destruct w as [[ms cur sts eng lk] tr]. cbn.
  intros -> -> HA. unfold unload_current_model, unload_locked.
  split_paths; reflect_tests; simplify_eq; intros [= <-]; cbn; auto.
Qed.

Lemma load_failure_unoccupied env w key cfg :
  lock_held (mgr w) = false →
  current_model (mgr w) = None →
  lookup_model key (models (mgr w)) = Some cfg →
  engine_ctor_raises env = true →
  load_model env key w
  = Ok false {| mgr := mark key ERROR (mark key LOADING (mgr w));
                trace := trace w ++ [EvState key LOADING;
                                     EvEngineLoad (name cfg) false;
                                     EvState key ERROR] |}.
Proof.
  destruct w as [[ms cur sts eng lk] tr]. cbn.
  intros -> -> Hcfg Hctor.
  unfold load_model, load_model_with, load_locked.
  run_monad. rewrite Hcfg. run_monad.
  rewrite bool_decide_eq_false_2 by discriminate. run_monad.
  rewrite Hctor. run_monad. cbn. rewrite <- !app_assoc. reflexivity.
Qed.

(** C7. After a resident model [A] has been evicted by a successful
    unload, a load of a registered key whose engine construction fails
    returns [False], leaves that key in [ERROR] and no model current;
    [A] stays [UNLOADED]. *)
Theorem load_failure_after_eviction env_u env w w1 A key cfg :
  lock_held (mgr w) = false →
  current_model (mgr w) = Some A → A ≠ "" →
  unload_current_model env_u w = Ok true w1 →
  lookup_model key (models (mgr w)) = Some cfg →
  engine_ctor_raises env = true →
  ∃ w2, load_model env key w1 = Ok false w2
      ∧ model_states (mgr w2) !! key = Some ERROR
      ∧ current_model (mgr w2) = None
      ∧ (A ≠ key → model_states (mgr w2) !! A = Some UNLOADED).
Proof.
  intros Hlk Hcur HA Hun Hcfg Hctor.
  destruct (unload_success _ _ _ _ Hlk Hcur HA Hun) as (Hc1 & Hl1 & Hm1 & Hs1).
  rewrite <- Hm1 in Hcfg.
  eexists. split; [apply load_failure_unoccupied; eassumption|].
  cbn. rewrite Hs1. split; [apply lookup_insert_eq|]. split; [exact Hc1|].
  intros Hne. rewrite !lookup_insert_ne by congruence. apply lookup_insert_eq.
Qed.

Lemma load_failure_after_eviction_witness :
  ∃ w2, load_model ctor_fails "translation"
          (world_of (unload_current_model no_faults after_startup))
        = Ok false w2
      ∧ model_states (mgr w2) !! "translation" = Some ERROR
      ∧ current_model (mgr w2) = None
      ∧ ("content_transformation" ≠ "translation" →
         model_states (mgr w2) !! "content_transformation" = Some UNLOADED).
Proof.
  apply (load_failure_after_eviction no_faults ctor_fails after_startup
           (world_of (unload_current_model no_faults after_startup))
           "content_transformation" "translation" translation_model);
    [reflexivity | reflexivity | discriminate | vm_compute; reflexivity
    | reflexivity | reflexivity].
Defined.

(** ** Idempotence and unknown inputs *)

Lemma find_model_key_registered t ms key :
  find_model_key t ms = Some key → ∃ cfg, lookup_model key ms = Some cfg.
Proof.
  induction ms as [|[k c] ms IH]; cbn; [discriminate|].
  destruct (bool_decide (task_type c = t)).
  - intros [= ->]. rewrite String.eqb_refl. eauto.
  - intros H. destruct (String.eqb k key); eauto.
Qed.

Lemma load_success_unoccupied env w key cfg :
  lock_held (mgr w) = false →
  current_model (mgr w) = None →
  lookup_model key (models (mgr w)) = Some cfg →
  engine_ctor_raises env = false →
  load_model env key w
  = Ok true
      {| mgr := {| models := models (mgr w);
                   current_model := Some key;
                   model_states :=
                     <[key := LOADED]> (<[key := LOADING]> (model_states (mgr w)));
                   vllm_engine := Some (engine_args env cfg);
                   lock_held := false |};
         trace := trace w ++ [EvState key LOADING;
                              EvEngineLoad (name cfg) true;
                              EvCurrent (Some key);
                              EvState key LOADED] |}.
Proof.
  destruct w as [[ms cur sts eng lk] tr]. cbn.
  intros -> -> Hcfg Hctor.
  unfold load_model, load_model_with, load_locked.
  run_monad. rewrite Hcfg. run_monad.
  rewrite bool_decide_eq_false_2 by discriminate. run_monad.
  rewrite Hctor. run_monad. cbn. rewrite <- !app_assoc. reflexivity.
Qed.

Lemma ensure_fast_path env t w key :
  find_model_key t (models (mgr w)) = Some key → key ≠ "" →
  current_model (mgr w) = Some key →
  model_states (mgr w) !! key = Some LOADED →
  ensure_model_loaded env t w = Ok true w.
Proof.
  destruct w as [[ms cur sts eng lk] tr]. cbn.
  intros Hkey Hne -> Hst. unfold ensure_model_loaded. run_monad.
  rewrite Hkey. cbn [truthy]. 
  apply String.eqb_neq in Hne. rewrite Hne.
  rewrite !bool_decide_eq_true_2 by assumption || reflexivity.
  reflexivity.
Qed.

(** C9. In every state of the manager, an unregistered model key
    given to [load_model] or to the swap endpoint is answered with a
    failure, and so is a task type no registered model serves given to
    [ensure_model_loaded]; each leaves the whole world, current model,
    states, engine and lock, unchanged. *)
Theorem unknown_inputs_rejected exn_str env w :
  (∀ key, lookup_model key (models (mgr w)) = None →
     load_model env key w = Ok false w
     ∧ ∃ detail, swap_model exn_str env {| rq_model_key := key |} w
                 = Raise (HTTPException 500 detail) w)
  ∧ (∀ t, find_model_key t (models (mgr w)) = None →
     ensure_model_loaded env t w = Ok false w).
Proof.
  destruct w as [m tr]. split.
  - intros key Hkey. cbn in Hkey. split.
    + unfold load_model, load_model_with. run_monad. rewrite Hkey. reflexivity.
    + unfold swap_model. run_monad. cbn. rewrite Hkey. eauto.
  - intros t Ht. cbn in Ht.
    unfold ensure_model_loaded. run_monad. rewrite Ht. reflexivity.
Qed.

Lemma unknown_inputs_rejected_witness :
  (load_model no_faults "nonexistent" after_startup = Ok false after_startup
   ∧ ∃ detail, swap_model (λ _, "") no_faults
                 {| rq_model_key := "nonexistent" |} after_startup
               = Raise (HTTPException 500 detail) after_startup)
  ∧ (load_model no_faults "nonexistent" wedged = Ok false wedged
     ∧ ∃ detail, swap_model (λ _, "") no_faults
                   {| rq_model_key := "nonexistent" |} wedged
                 = Raise (HTTPException 500 detail) wedged)
  ∧ ensure_model_loaded no_faults TRANSLATION content_only
    = Ok false content_only.
Proof.
  split; [|split].
  - apply (proj1 (unknown_inputs_rejected (λ _, "") no_faults after_startup)
             "nonexistent").
    vm_compute. reflexivity.
  - apply (proj1 (unknown_inputs_rejected (λ _, "") no_faults wedged)
             "nonexistent").
    vm_compute. reflexivity.
  - apply (proj2 (unknown_inputs_rejected (λ _, "") no_faults content_only)
             TRANSLATION).
    reflexivity.
Defined.

(** ** The gateway *)

(** C10. A [task_type] hint that names no task type does not get the
    request rejected: the handler goes on with the classifier's answer
    [t] for the messages. It calls [ensure_model_loaded] for [t] and
    ends in the world that call leaves; when the load fails its error
    names [t]; when the model is ready it goes on to the generation;
    when the manager blocks so does the handler. In all it does what
    it does for the same request without the hint. *)
Theorem invalid_hint_falls_back lower exn_str gen env request s w :
  rq_task_type request = Some s →
  TaskType_of_value s = None →
  let t := determine_task_type_from_messages lower (rq_messages request) in
  resolve_task_type lower request = t
  ∧ match ensure_model_loaded env t w with
    | Ok false w' =>
        create_chat_completion lower exn_str gen env request w
        = Raise (HTTPException 500
                   ("Ошибка генерации: "
                    +:+ exn_str (HTTPException 503
                                   ("Не удалось загрузить модель для задачи "
                                    +:+ TaskType_value t))))
            w'
    | Ok true w' =>
        create_chat_completion lower exn_str gen env request w
        = Raise (HTTPException 500
                   ("Ошибка генерации: "
                    +:+ exn_str (generation_error gen request (mgr w'))))
            w'
    | Raise e w' =>
        create_chat_completion lower exn_str gen env request w
        = Raise (HTTPException 500 ("Ошибка генерации: " +:+ exn_str e)) w'
    | Blocked w' =>
        create_chat_completion lower exn_str gen env request w = Blocked w'
    end
  ∧ create_chat_completion lower exn_str gen env request w
    = create_chat_completion lower exn_str gen env (without_hint request) w.
Proof.
  intros Hhint Hbad t.
  assert (resolve_task_type lower request = t) as Hres.
  { unfold resolve_task_type. rewrite Hhint, Hbad.
    destruct (truthy (Some s)); reflexivity. }
  split; [exact Hres|]. split.
  - unfold create_chat_completion, try_except. rewrite Hres.
    cbv beta iota zeta delta [mbind mret M_bind M_ret get_mgr raise].
    destruct (ensure_model_loaded env t w) as [[|] w'|e w'|w'];
      cbn [negb]; try reflexivity.
    unfold generation_error, generate, sampling_params.
    destruct (vllm_engine (mgr w')) as [engine|]; [|reflexivity].
    destruct (gen engine _ _) as [|[out|]]; try reflexivity.
    cbv beta iota zeta delta [mbind mret M_bind M_ret get_mgr raise].
    destruct (outputs out); reflexivity.
  - unfold create_chat_completion. rewrite Hres. reflexivity.
Qed.

Lemma invalid_hint_falls_back_witness :
  let request := hinted_request (Some "summarise") "Translate it" in
  let t := determine_task_type_from_messages ascii_lower (rq_messages request) in
  t = TRANSLATION
  ∧ resolve_task_type ascii_lower request = t
  ∧ match ensure_model_loaded ctor_fails t init_world with
    | Ok false w' =>
        create_chat_completion ascii_lower (λ _, "") (λ _ _ _, GenRaises)
          ctor_fails request init_world
        = Raise (HTTPException 500
                   ("Ошибка генерации: "
                    +:+ (λ _, "") (HTTPException 503
                                   ("Не удалось загрузить модель для задачи "
                                    +:+ TaskType_value t))))
            w'
    | Ok true w' =>
        create_chat_completion ascii_lower (λ _, "") (λ _ _ _, GenRaises)
          ctor_fails request init_world
        = Raise (HTTPException 500
                   ("Ошибка генерации: "
                    +:+ (λ _, "") (generation_error (λ _ _ _, GenRaises)
                                     request (mgr w'))))
            w'
    | Raise e w' =>
        create_chat_completion ascii_lower (λ _, "") (λ _ _ _, GenRaises)
          ctor_fails request init_world
        = Raise (HTTPException 500 ("Ошибка генерации: " +:+ (λ _, "") e)) w'
    | Blocked w' =>
        create_chat_completion ascii_lower (λ _, "") (λ _ _ _, GenRaises)
          ctor_fails request init_world
        = Blocked w'
    end
  ∧ create_chat_completion ascii_lower (λ _, "") (λ _ _ _, GenRaises)
      ctor_fails request init_world
    = create_chat_completion ascii_lower (λ _, "") (λ _ _ _, GenRaises)
        ctor_fails (without_hint request) init_world.
Proof.
  split; [vm_compute; reflexivity|].
  apply (invalid_hint_falls_back ascii_lower (λ _, "") (λ _ _ _, GenRaises)
           ctor_fails (hinted_request (Some "summarise") "Translate it")
           "summarise" init_world); reflexivity.
Defined.

Lemma load_failure_is_wrapped lower exn_str gen env request w w' :
  ensure_model_loaded env (resolve_task_type lower request) w = Ok false w' →
  create_chat_completion lower exn_str gen env request w
  = Raise (HTTPException 500
             ("Ошибка генерации: "
              +:+ exn_str (HTTPException 503
                             ("Не удалось загрузить модель для задачи "
                              +:+ TaskType_value (resolve_task_type lower request)))))
      w'.
Proof.
  intros H. unfold create_chat_completion. run_monad. rewrite H. reflexivity.
Qed.

(** C5, on the code. On a fresh manager whose engine construction
    fails, [ensure_model_loaded] returns [False] and the handler raises
    its 503, but the enclosing [except Exception] catches it: the
    response is a 500 whose detail wraps the text of the 503. *)
Theorem load_failure_answered_500 lower exn_str gen :
  ensure_model_loaded ctor_fails TRANSLATION init_world
  = Ok false (world_of (load_model ctor_fails "translation" init_world))
  ∧ create_chat_completion lower exn_str gen ctor_fails
      (hinted_request (Some "translation") "hello") init_world
    = Raise (HTTPException 500
               ("Ошибка генерации: "
                +:+ exn_str (HTTPException 503
                               "Не удалось загрузить модель для задачи translation")))
        (world_of (load_model ctor_fails "translation" init_world)).
Proof.
  assert (ensure_model_loaded ctor_fails TRANSLATION init_world
          = Ok false (world_of (load_model ctor_fails "translation" init_world)))
    as H by (vm_compute; reflexivity).
  split; [exact H|].
  apply (load_failure_is_wrapped lower exn_str gen ctor_fails
           (hinted_request (Some "translation") "hello")). exact H.
Qed.

(** ** The classifier *)

Lemma append_cons c s t : String c s +:+ t = String c (s +:+ t).
Proof. reflexivity. Qed.

Lemma append_nil t : "" +:+ t = t.
Proof. reflexivity. Qed.

Lemma prefix_split s1 s2 :
  String.prefix s1 s2 = true ↔ ∃ post, s2 = s1 +:+ post.
Proof.
  revert s2. induction s1 as [|a s1 IH]; intros s2.
  - destruct s2; split; cbn; eauto.
  - destruct s2 as [|b s2]; simpl.
    + split; [discriminate | intros [post [=]]].
    + setoid_rewrite append_cons.
      destruct (ascii_dec a b) as [->|Hne].
      * rewrite IH. split; intros [post Hp]; exists post; congruence.
      * split; [discriminate | intros [post Hp]; congruence].
Qed.

Lemma str_in_occurs needle hay : str_in needle hay = true ↔ occurs needle hay.
Proof.
  induction hay as [|c hay IH]; cbn [str_in].
  - rewrite orb_false_r, prefix_split. split.
    + intros [post Hp]. exists "", post. exact Hp.
    + intros (pre & post & Hp). destruct pre; [eauto | discriminate].
  - rewrite orb_true_iff, prefix_split, IH. split.
    + intros [[post Hp] | (pre & post & Hp)].
      * exists "", post. exact Hp.
      * exists (String c pre), post. rewrite append_cons. congruence.
    + intros (pre & post & Hp). destruct pre as [|c' pre].
      * left. exists post. exact Hp.
      * right. rewrite append_cons in Hp. injection Hp as _ Hp.
        exists pre, post. exact Hp.
Qed.

#[global] Instance occurs_dec needle hay : Decision (occurs needle hay).
Proof.
  destruct (str_in needle hay) eqn:E.
  - left. apply str_in_occurs, E.
  - right. intros H. apply str_in_occurs in H. congruence.
Defined.

Lemma keyword_score_count keywords text :
  keyword_score keywords text
  = Z.of_nat (length (filter (λ kw, occurs kw text) keywords)).
Proof.
  induction keywords as [|kw rest IH]; [reflexivity|].
  cbn [keyword_score]. rewrite IH, filter_cons.
  destruct (str_in kw text) eqn:E.
  - rewrite decide_True by (apply str_in_occurs, E). cbn [length]. lia.
  - rewrite decide_False; [lia|]. intros H. apply str_in_occurs in H. congruence.
Qed.

Lemma combined_text_contents lower messages messages' :
  map content messages' = map content messages →
  combined_text lower messages' = combined_text lower messages.
Proof.
  intros Heq. unfold combined_text.
  rewrite <- !(map_map content lower). f_equal. f_equal. exact Heq.
Qed.

(** C6. The classifier joins the lower-cased message contents, counts
    for each keyword set how many of its keywords occur in that text,
    answers [TRANSLATION] when the translation count is strictly
    greater and [CONTENT_TRANSFORMATION] when the content count is
    greater or the counts tie; messages with the same contents get the
    same answer. *)
Theorem classifier_decision lower messages :
  let text := String.concat " " (map (λ msg, lower (content msg)) messages) in
  let content_count := length (filter (λ kw, occurs kw text) content_keywords) in
  let translation_count :=
    length (filter (λ kw, occurs kw text) translation_keywords) in
  (content_count < translation_count →
     determine_task_type_from_messages lower messages = TRANSLATION)
  ∧ (translation_count < content_count →
     determine_task_type_from_messages lower messages = CONTENT_TRANSFORMATION)
  ∧ (translation_count = content_count →
     determine_task_type_from_messages lower messages = CONTENT_TRANSFORMATION)
  ∧ (∀ messages', map content messages' = map content messages →
     determine_task_type_from_messages lower messages'
     = determine_task_type_from_messages lower messages).
Proof.
  cbv zeta. unfold determine_task_type_from_messages.
  split; [|split; [|split]].
  - intros H. unfold combined_text. rewrite !keyword_score_count.
    rewrite (proj2 (Z.ltb_lt _ _)) by lia. reflexivity.
  - intros H. unfold combined_text. rewrite !keyword_score_count.
    rewrite (proj2 (Z.ltb_ge _ _)) by lia. reflexivity.
  - intros H. unfold combined_text. rewrite !keyword_score_count.
    rewrite (proj2 (Z.ltb_ge _ _)) by lia. reflexivity.
  - intros messages' Heq.
    rewrite (combined_text_contents lower messages messages' Heq). reflexivity.
Qed.

Example classify_translation :
  determine_task_type_from_messages ascii_lower
    [{| role := "user"; content := "Translate this PDF into English" |}]
  = TRANSLATION.
Proof. vm_compute. reflexivity. Qed.

Example classify_tie_defaults :
  determine_task_type_from_messages ascii_lower
    [{| role := "user"; content := "translate the pdf" |}]
  = CONTENT_TRANSFORMATION.
Proof. vm_compute. reflexivity. Qed.

(** * Further properties of the manager and the endpoints *)

(** ** What every call does *)

(** A call never lets an exception out, keeps the registry, and leaves
    the lock as it found it unless it blocks. *)
Lemma run_call_outcome env c w :
  match run_call env c w with
  | Ok _ w' => lock_held (mgr w') = lock_held (mgr w)
               ∧ models (mgr w') = models (mgr w)
  | Raise _ _ => False
  | Blocked w' => lock_held (mgr w') = true
                  ∧ models (mgr w') = models (mgr w)
  end.
Proof.
  destruct w as [[ms cur sts eng lk] tr].
  destruct c; cbn [run_call];
    unfold ensure_model_loaded, load_model, load_model_with, load_locked,
      unload_current_model, unload_locked;
    split_paths; auto.
Qed.

(** X1. No manager call lets an exception out; a call that returns
    leaves the lock as it found it, a call that blocks leaves it held;
    and no call changes the registry. *)
Theorem calls_return_or_block env c w :
  (∀ e w', run_call env c w ≠ Raise e w')
  ∧ (∀ b w', run_call env c w = Ok b w' →
       lock_held (mgr w') = lock_held (mgr w))
  ∧ (∀ w', run_call env c w = Blocked w' → lock_held (mgr w') = true)
  ∧ models (mgr (world_of (run_call env c w))) = models (mgr w).
Proof.
  pose proof (run_call_outcome env c w) as H.
  destruct (run_call env c w) as [b w1|e w1|w1]; cbn [world_of].
  - destruct H as [Hl Hm]. repeat split; congruence.
  - contradiction.
  - destruct H as [Hl Hm]. repeat split; congruence.
Qed.

(** X2. While the lock is held no call changes anything: the world
    after the call, returned or blocked, is the world before it. *)
Theorem held_lock_freezes_manager env c w :
  lock_held (mgr w) = true → world_of (run_call env c w) = w.
Proof.
  destruct w as [[ms cur sts eng lk] tr]. cbn. intros ->.
  destruct c; cbn [run_call];
    unfold ensure_model_loaded, load_model, load_model_with, load_locked,
      unload_current_model, unload_locked;
    split_paths; reflexivity.
Qed.

(** X3. Whenever a model is resident and the lock is free, asking
    for any other registered model, by key or by task type, blocks:
    the requested key is left in [LOADING] and the lock held. *)
Theorem swap_always_blocks env w A B cfg t :
  lock_held (mgr w) = false →
  current_model (mgr w) = Some A → A ≠ "" → A ≠ B →
  lookup_model B (models (mgr w)) = Some cfg →
  find_model_key t (models (mgr w)) = Some B → B ≠ "" →
  load_model env B w = Blocked (swap_point B w)
  ∧ ensure_model_loaded env t w = Blocked (swap_point B w).
Proof.
  intros Hlk Hcur HA HAB Hcfg Ht HB.
  pose proof (swap_blocks env w A B cfg Hlk Hcur HA HAB Hcfg) as Hload.
  split; [exact Hload|].
  unfold ensure_model_loaded. destruct w as [[ms cur sts eng lk] tr].
  cbn in *. run_monad. rewrite Ht. cbn [truthy].
  apply String.eqb_neq in HB. rewrite HB. subst cur.
  rewrite (bool_decide_eq_false_2 (Some A = Some B)) by congruence.
  exact Hload.
Qed.

Ltac unfold_calls :=
  unfold ensure_model_loaded, load_model, load_model_with, load_locked,
    unload_current_model, unload_locked.

Ltac use_result :=
  let H := fresh "Hres" in
  intros H; try discriminate H; injection H as <-;
  reflect_tests; simplify_eq; cbn.

Lemma load_true_post env key w w1 :
  load_model env key w = Ok true w1 →
  current_model (mgr w1) = Some key
  ∧ loaded (mgr w1) key
  ∧ lock_held (mgr w1) = false
  ∧ models (mgr w1) = models (mgr w)
  ∧ is_Some (lookup_model key (models (mgr w))).
Proof.
  destruct w as [[ms cur sts eng lk] tr].
  unfold_calls; split_paths; use_result; unfold loaded; cbn;
    rewrite ?lookup_insert_eq; eauto 10.
Qed.

Lemma load_fast_path env key w :
  lock_held (mgr w) = false →
  is_Some (lookup_model key (models (mgr w))) →
  current_model (mgr w) = Some key →
  loaded (mgr w) key →
  load_model env key w = Ok true w.
Proof.
  destruct w as [[ms cur sts eng lk] tr]. unfold loaded. cbn.
  intros -> [cfg Hcfg] -> Hst.
  unfold load_model, load_model_with, load_locked. run_monad.
  rewrite Hcfg. run_monad.
  rewrite bool_decide_eq_true_2 by reflexivity. run_monad.
  rewrite Hst. run_monad.
  rewrite bool_decide_eq_true_2 by reflexivity. reflexivity.
Qed.

Lemma find_model_key_truthy t ms key :
  find_model_key t ms = Some key → is_Some (lookup_model key ms).
Proof.
  intros H. destruct (find_model_key_registered t ms key H) as [cfg Hcfg].
  eauto.
Qed.

Lemma ensure_true_post env t w w1 :
  ensure_model_loaded env t w = Ok true w1 →
  ∃ key, find_model_key t (models (mgr w)) = Some key
       ∧ key ≠ ""
       ∧ current_model (mgr w1) = Some key
       ∧ loaded (mgr w1) key
       ∧ models (mgr w1) = models (mgr w).
Proof.
  unfold ensure_model_loaded. destruct w as [m tr].
  cbv beta iota zeta delta [mbind mret M_bind M_ret get_mgr mgr].
  destruct (find_model_key t (models m)) as [key|] eqn:Hkey; [|discriminate].
  destruct (negb (truthy (Some key))) eqn:Ht; [discriminate|].
  assert (key ≠ "") as Hne.
  { apply negb_false_iff, truthy_true in Ht.
    destruct Ht as (k & [= <-] & Hk). exact Hk. }
  destruct (_ || _) eqn:Hfast.
  - intros Hload. apply load_true_post in Hload.
    destruct Hload as (Hc & Hl & _ & Hm & _). exists key. auto.
  - intros [= <-]. apply orb_false_iff in Hfast. destruct Hfast as [H1 H2].
    apply negb_false_iff, bool_decide_eq_true in H1, H2.
    exists key. auto.
Qed.

Lemma unload_true_post env w w1 :
  unload_current_model env w = Ok true w1 →
  truthy (current_model (mgr w1)) = false
  ∧ (truthy (current_model (mgr w)) = true →
     current_model (mgr w1) = None ∧ vllm_engine (mgr w1) = None).
Proof.
  destruct w as [[ms cur sts eng lk] tr].
  unfold_calls; split_paths; use_result; auto; try congruence.
  all: split; [reflexivity | discriminate].
Qed.

(** X4. A call that returned [True], made again at once and under
    any environment, returns [True] and changes nothing. *)
Theorem successful_call_repeats env env' c w w1 :
  run_call env c w = Ok true w1 →
  run_call env' c w1 = Ok true w1.
Proof.
  destruct c as [key| |t]; cbn [run_call]; intros Hrun.
  - apply load_true_post in Hrun. destruct Hrun as (Hc & Hl & Hlk & Hm & Hreg).
    apply load_fast_path; auto. rewrite Hm. exact Hreg.
  - apply unload_true_post in Hrun. destruct Hrun as [Hf _].
    unfold unload_current_model. destruct w1 as [m1 tr1]. cbn in *.
    cbv beta iota zeta delta [mbind mret M_bind M_ret get_mgr mgr].
    destruct (current_model m1) as [k|]; [|reflexivity].
    cbn [truthy] in Hf |- *. rewrite Hf. reflexivity.
  - apply ensure_true_post in Hrun.
    destruct Hrun as (key & Hkey & Hne & Hc & Hl & Hm).
    apply ensure_fast_path with key; auto. rewrite Hm. exact Hkey.
Qed.




(** X5. A call only appends to the record of writes, and it calls
    the engine constructor at most once: a failed load is not retried. *)
Theorem one_construction_per_call env c w :
  ∃ evs, trace (world_of (run_call env c w)) = trace w ++ evs
       ∧ (engine_loads evs ≤ 1)%nat.
Proof.
  destruct w as [[ms cur sts eng lk] tr].
  destruct c; cbn [run_call]; unfold_calls; split_paths;
    rewrite <- ?app_assoc;
    first [ exists []; split; [symmetry; apply app_nil_r | cbn; lia]
          | eexists; split; [reflexivity | cbn; lia] ].
Qed.

(** X6. A load that returns [False] leaves the current model, the
    engine handle and every other key's state as they were; the
    requested key, when registered, ends in [ERROR]. *)
Theorem failed_load_evicts_nothing env key w w1 :
  load_model env key w = Ok false w1 →
  current_model (mgr w1) = current_model (mgr w)
  ∧ vllm_engine (mgr w1) = vllm_engine (mgr w)
  ∧ (∀ k, k ≠ key → model_states (mgr w1) !! k = model_states (mgr w) !! k)
  ∧ (is_Some (lookup_model key (models (mgr w))) →
     model_states (mgr w1) !! key = Some ERROR).
Proof.
  destruct w as [[ms cur sts eng lk] tr].
  unfold_calls; split_paths; use_result.
  all: split; [reflexivity|]; split; [reflexivity|]; split;
    [ intros k Hk; rewrite ?lookup_insert_ne by congruence; reflexivity
    | intros [cfg Hcfg]; try discriminate Hcfg; apply lookup_insert_eq ].
Qed.

(** ** Invariants of the reachable worlds *)

Ltac solve_engine Heng :=
  unfold engine_matches_current in *; cbn in *;
  reflect_tests; simplify_eq; eauto.

Lemma unload_keeps_engine env w :
  engine_matches_current (mgr w) →
  engine_matches_current (mgr (world_of (unload_current_model env w))).
Proof.
  destruct w as [[ms cur sts eng lk] tr]. intros Heng.
  unfold_calls; split_paths; solve_engine Heng.
Qed.

Lemma load_keeps_engine env key w :
  engine_matches_current (mgr w) →
  engine_matches_current (mgr (world_of (load_model env key w))).
Proof.
  destruct w as [[ms cur sts eng lk] tr]. intros Heng.
  unfold_calls; split_paths; solve_engine Heng.
Qed.

Lemma ensure_keeps env t w (P : Manager → Prop) :
  (∀ key w0, P (mgr w0) → P (mgr (world_of (load_model env key w0)))) →
  P (mgr w) → P (mgr (world_of (ensure_model_loaded env t w))).
Proof.
  intros Hload HP. unfold ensure_model_loaded. destruct w as [m tr].
  cbv beta iota zeta delta [mbind mret M_bind M_ret get_mgr mgr].
  destruct (find_model_key t (models m)) as [k|]; [|exact HP].
  destruct (negb (truthy (Some k))); [exact HP|].
  destruct (_ || _); [apply Hload; exact HP | exact HP].
Qed.

Lemma run_call_keeps env c w (P : Manager → Prop) :
  (∀ w0, P (mgr w0) → P (mgr (world_of (unload_current_model env w0)))) →
  (∀ key w0, P (mgr w0) → P (mgr (world_of (load_model env key w0)))) →
  P (mgr w) → P (mgr (world_of (run_call env c w))).
Proof.
  intros Hun Hload HP. destruct c; cbn [run_call]; auto.
  apply ensure_keeps; auto.
Qed.

Lemma reachable_engine w : reachable w → engine_matches_current (mgr w).
Proof.
  induction 1 as [|w env c _ IH].
  - reflexivity.
  - apply run_call_keeps; auto using unload_keeps_engine, load_keeps_engine.
Qed.


Lemma registered_lookup key cfg :
  lookup_model key registered_models = Some cfg →
  (key = "content_transformation" ∧ cfg = content_model)
  ∨ (key = "translation" ∧ cfg = translation_model).
Proof.
  unfold registered_models. cbn [lookup_model].
  destruct (String.eqb_spec "content_transformation" key) as [<-|_].
  { intros [= <-]. auto. }
  destruct (String.eqb_spec "translation" key) as [<-|_].
  { intros [= <-]. auto. }
  discriminate.
Qed.

Lemma mark_registered_dom key cfg st (sts : gmap string ModelState) :
  lookup_model key registered_models = Some cfg →
  dom sts = ({["content_transformation"; "translation"]} : gset string) →
  dom (<[key := st]> sts) = ({["content_transformation"; "translation"]} : gset string).
Proof.
  intros Hreg Hdom. rewrite dom_insert_L, Hdom.
  destruct (registered_lookup key cfg Hreg) as [[-> _]|[-> _]]; set_solver.
Qed.

Ltac cover_fields :=
  split; [reflexivity|];
  repeat match goal with
  | H : ∃ _ _, _ ∧ _ |- _ => destruct H as (? & ? & ? & ?)
  end;
  repeat (erewrite mark_registered_dom; [| eassumption | ]);
  try eassumption; try reflexivity.

Ltac solve_cover :=
  unfold well_formed, states_cover_registry, engine_matches_current in *;
  cbn in *; reflect_tests; simplify_eq;
  (split; [eauto | cover_fields]).

Lemma unload_keeps_well_formed env w :
  well_formed (mgr w) →
  well_formed (mgr (world_of (unload_current_model env w))).
Proof.
  destruct w as [[ms cur sts eng lk] tr]. intros [Heng [Hms Hdom]].
  cbn in Hms. subst ms.
  unfold_calls; split_paths; try (split; [exact Heng | split; [reflexivity | exact Hdom]]).
  all: solve_cover.
Qed.

Lemma load_keeps_well_formed env key w :
  well_formed (mgr w) →
  well_formed (mgr (world_of (load_model env key w))).
Proof.
  destruct w as [[ms cur sts eng lk] tr]. intros [Heng [Hms Hdom]].
  cbn in Hms. subst ms.
  unfold_calls; split_paths; try (split; [exact Heng | split; [reflexivity | exact Hdom]]).
  all: solve_cover.
Qed.

Lemma init_well_formed : well_formed init_manager.
Proof.
  split; [reflexivity|]. split; [reflexivity|].
  unfold init_manager, register_states. cbn.
  rewrite !dom_insert_L, dom_empty_L. set_solver.
Qed.

Lemma reachable_well_formed w : reachable w → well_formed (mgr w).
Proof.
  induction 1 as [|w env c _ IH].
  - exact init_well_formed.
  - apply run_call_keeps;
      auto using unload_keeps_well_formed, load_keeps_well_formed.
Qed.

(** X7. In every reachable world the engine handle goes with the
    current model: there is none when no model is current, and
    otherwise it was built from the current key's registered
    configuration. *)
Theorem engine_follows_current w :
  reachable w →
  match current_model (mgr w) with
  | None => vllm_engine (mgr w) = None
  | Some key =>
      ∃ cfg env, lookup_model key registered_models = Some cfg
                 ∧ vllm_engine (mgr w) = Some (engine_args env cfg)
  end.
Proof.
  intros Hr. destruct (reachable_well_formed w Hr) as [Heng [Hms _]].
  unfold engine_matches_current in Heng. rewrite Hms in Heng. exact Heng.
Qed.

(** X8. In every reachable world [list_models] raises no [KeyError]:
    it returns the two registered models in registry order, each with
    its state, changes nothing, and never shows both as loaded. *)
Theorem list_models_reports_registry w :
  reachable w →
  ∃ st_c st_t,
    model_states (mgr w) !! "content_transformation" = Some st_c
    ∧ model_states (mgr w) !! "translation" = Some st_t
    ∧ list_models w
      = Ok [model_card "content_transformation" content_model st_c;
            model_card "translation" translation_model st_t] w
    ∧ ¬ (st_c = LOADED ∧ st_t = LOADED).
Proof.
  intros Hr. destruct (reachable_well_formed w Hr) as [_ [Hms Hdom]].
  pose proof (reachable_residency_ok w Hr) as [Hl _ _].
  destruct w as [m tr]. cbn in *.
  assert (is_Some (model_states m !! "content_transformation")) as [st_c Hc].
  { apply elem_of_dom. rewrite Hdom. set_solver. }
  assert (is_Some (model_states m !! "translation")) as [st_t Ht].
  { apply elem_of_dom. rewrite Hdom. set_solver. }
  exists st_c, st_t. split; [exact Hc|]. split; [exact Ht|]. split.
  - unfold list_models.
    cbv beta iota zeta delta [mbind mret M_bind M_ret get_mgr mgr].
    rewrite Hms. unfold registered_models. cbn [model_cards]. unfold read_state.
    cbv beta iota zeta delta [mbind mret M_bind M_ret get_mgr mgr raise].
    rewrite Hc, Ht. reflexivity.
  - intros [-> ->]. apply Hl in Hc, Ht. congruence.
Qed.

Lemma name_is_never_lower st : String.eqb (ModelState_name st) "loaded" = false.
Proof. destruct st; reflexivity. Qed.

Lemma gauge_lines_zero ms m tr :
  (∀ k c, (k, c) ∈ ms → is_Some (model_states m !! k)) →
  gauge_lines ms {| mgr := m; trace := tr |}
  = Ok (map (λ kc, gauge_line kc.1 kc.2 0) ms) {| mgr := m; trace := tr |}.
Proof.
  induction ms as [|[k c] ms IH]; intros Hall; [reflexivity|].
  destruct (Hall k c) as [st Hst]; [left|].
  cbn [gauge_lines map]. unfold read_state.
  cbv beta iota zeta delta [mbind mret M_bind M_ret get_mgr mgr raise].
  rewrite Hst, name_is_never_lower, IH; [reflexivity|].
  intros k' c' Hin. apply (Hall k' c'). right. exact Hin.
Qed.

(** X9. The [vllm_model_loaded] gauges of [metrics] are 0 in every
    reachable world, loaded model or not, because the test compares
    the member's upper-case name with the lower-case text: the output
    is the one of the freshly initialised manager. *)
Theorem metrics_gauge_is_always_zero vram_text w :
  reachable w →
  ∃ text head,
    metrics vram_text w = Ok text w
    ∧ text = String.concat newline
               (head ++ [gauge_line "content_transformation" content_model 0;
                         gauge_line "translation" translation_model 0])
    ∧ metrics vram_text init_world = Ok text init_world.
Proof.
  intros Hr. destruct (reachable_well_formed w Hr) as [_ [Hms Hdom]].
  assert (∀ m, dom (model_states m)
               = ({["content_transformation"; "translation"]} : gset string) →
               ∀ k c, (k, c) ∈ registered_models → is_Some (model_states m !! k))
    as Hall.
  { intros m Hd k c Hin. apply elem_of_dom. rewrite Hd.
    unfold registered_models in Hin.
    apply elem_of_cons in Hin as [[= -> _]|Hin]; [set_solver|].
    apply elem_of_cons in Hin as [[= -> _]|Hin]; [set_solver|].
    inversion Hin. }
  destruct w as [m tr]. cbn in *. eexists. eexists. split; [|split].
  - unfold metrics.
    cbv beta iota zeta delta [mbind mret M_bind M_ret get_mgr mgr].
    rewrite Hms, gauge_lines_zero by (apply Hall, Hdom). reflexivity.
  - reflexivity.
  - unfold metrics, init_world.
    cbv beta iota zeta delta [mbind mret M_bind M_ret get_mgr mgr].
    change (models init_manager) with registered_models.
    rewrite gauge_lines_zero; [reflexivity|].
    apply Hall. apply init_well_formed.
Qed.

Lemma metrics_gauge_is_always_zero_witness :
  reachable swapped_over
  ∧ loaded (mgr swapped_over) "translation"
  ∧ ∃ text head,
      metrics "47.5" swapped_over = Ok text swapped_over
      ∧ text = String.concat newline
                 (head ++ [gauge_line "content_transformation" content_model 0;
                           gauge_line "translation" translation_model 0])
      ∧ metrics "47.5" init_world = Ok text init_world.
Proof.
  assert (reachable swapped_over) as H
    by (unfold swapped_over; repeat apply reach_call; apply reach_init).
  split; [exact H|]. split; [vm_compute; reflexivity|].
  exact (metrics_gauge_is_always_zero "47.5" swapped_over H).
Defined.

(** ** Consequences for the endpoints *)

(** X10. In a reachable world, once [ensure_model_loaded] has
    returned [True] the manager holds an engine built from the
    configuration registered for that task type, and its key is the
    current, [LOADED] one. *)
Theorem ensure_success_has_engine env t w w1 :
  reachable w →
  ensure_model_loaded env t w = Ok true w1 →
  ∃ key cfg env0,
    find_model_key t registered_models = Some key
    ∧ lookup_model key registered_models = Some cfg
    ∧ task_type cfg = t
    ∧ current_model (mgr w1) = Some key
    ∧ loaded (mgr w1) key
    ∧ vllm_engine (mgr w1) = Some (engine_args env0 cfg).
Proof.
  intros Hr Hrun.
  assert (reachable w1) as Hr1.
  { change w1 with (world_of (Ok true w1)). rewrite <- Hrun.
    apply (reach_call w env (CallEnsure t) Hr). }
  destruct (reachable_well_formed w Hr) as [_ [Hms _]].
  destruct (reachable_well_formed w1 Hr1) as [Heng [Hms1 _]].
  destruct (ensure_true_post env t w w1 Hrun) as (key & Hkey & Hne & Hc & Hl & _).
  unfold engine_matches_current in Heng. rewrite Hc, Hms1 in Heng.
  destruct Heng as (cfg & env0 & Hcfg & He).
  rewrite Hms in Hkey.
  exists key, cfg, env0. repeat split; auto.
  revert Hkey Hcfg. unfold registered_models. cbn.
  destruct t; intros [= <-]; intros [= <-]; reflexivity.
Qed.

Lemma ensure_never_raises env t w e w' :
  ensure_model_loaded env t w ≠ Raise e w'.
Proof.
  pose proof (run_call_outcome env (CallEnsure t) w) as H. cbn [run_call] in H.
  intros Heq. rewrite Heq in H. exact H.
Qed.

Lemma load_never_raises env key w e w' :
  load_model env key w ≠ Raise e w'.
Proof.
  pose proof (run_call_outcome env (CallLoad key) w) as H. cbn [run_call] in H.
  intros Heq. rewrite Heq in H. exact H.
Qed.

(** X11. [create_chat_completion] never returns a completion: every
    request ends in a 500 response, or never returns because the
    manager blocked. *)
Theorem chat_completion_never_succeeds lower exn_str gen env request w :
  match create_chat_completion lower exn_str gen env request w with
  | Ok _ _ => False
  | Raise e _ => ∃ detail, e = HTTPException 500 detail
  | Blocked w' => lock_held (mgr w') = true
  end.
Proof.
  unfold create_chat_completion, try_except.
  cbv beta iota zeta delta [mbind mret M_bind M_ret get_mgr raise].
  pose proof (run_call_outcome env
                (CallEnsure (resolve_task_type lower request)) w) as Hout.
  cbn [run_call] in Hout.
  destruct (ensure_model_loaded env (resolve_task_type lower request) w)
    as [[|] w1|e w1|w1]; cbn [negb].
  - destruct (vllm_engine (mgr w1)) as [engine|]; [|eauto].
    unfold generate.
    destruct (gen engine _ _) as [|[out|]]; cbn; eauto.
    destruct (outputs out); eauto.
  - eauto.
  - contradiction.
  - apply Hout.
Qed.

(** X12. The swap endpoint either succeeds with the requested key
    current and [LOADED], or answers 500 (never the 400 or 503 it
    raises inside), or blocks. *)
Theorem swap_model_outcomes exn_str env request w :
  match swap_model exn_str env request w with
  | Ok response w' =>
      sw_current_model response = Some (rq_model_key request)
      ∧ current_model (mgr w') = Some (rq_model_key request)
      ∧ loaded (mgr w') (rq_model_key request)
  | Raise e w' => ∃ detail, e = HTTPException 500 detail
  | Blocked w' => lock_held (mgr w') = true
  end.
Proof.
  unfold swap_model, try_except.
  cbv beta iota zeta delta [mbind mret M_bind M_ret get_mgr raise].
  destruct (lookup_model (rq_model_key request) (models (mgr w))); [|eauto].
  pose proof (run_call_outcome env (CallLoad (rq_model_key request)) w) as Hout.
  cbn [run_call] in Hout.
  destruct (load_model env (rq_model_key request) w)
    as [[|] w1|e w1|w1] eqn:Hload.
  - apply load_true_post in Hload. destruct Hload as (Hc & Hl & _).
    cbn. auto.
  - eauto.
  - contradiction.
  - apply Hout.
Qed.

(** X13. The shutdown hook, run with the lock free and a runtime
    that releases, leaves no current model, no engine handle and no
    key in [LOADED]. *)
Theorem shutdown_releases_engine env w :
  reachable w →
  lock_held (mgr w) = false →
  engine_release_raises env = false →
  ∃ w', lifespan_shutdown env w = Ok tt w'
      ∧ current_model (mgr w') = None
      ∧ vllm_engine (mgr w') = None
      ∧ ∀ k, ¬ loaded (mgr w') k.
Proof.
  intros Hr Hlk Hrel.
  destruct (reachable_residency_ok w Hr) as [Hl Hc _].
  pose proof (reachable_well_formed w Hr) as [Heng _].
  destruct w as [[ms cur sts eng lk] tr]. cbn in *. subst lk.
  unfold lifespan_shutdown, engine_matches_current in *. cbn in Heng.
  unfold_calls. rewrite Hrel.
  split_paths; reflect_tests; simplify_eq.
  all: eexists; split; [reflexivity|]; cbn; repeat split; try congruence.
  all: try (destruct Heng as (? & ? & ? & ?); congruence).
  all: intros k Hk; unfold loaded in *; cbn in *.
  all: try (rewrite !lookup_insert in Hk; repeat case_decide; try discriminate).
  all: apply Hl in Hk; cbn in Hk; congruence.
Qed.

(** ** Task types and prompts *)

(** X14. [TaskType(s)] succeeds exactly on the values of the
    members, and a request whose hint is the value of [t] is resolved
    to [t] whatever its messages say. *)
Theorem task_type_value_round_trip lower t s request :
  (TaskType_of_value s = Some t ↔ s = TaskType_value t)
  ∧ (rq_task_type request = Some (TaskType_value t) →
     resolve_task_type lower request = t).
Proof.
  split.
  - unfold TaskType_of_value.
    destruct (String.eqb_spec s "content_transformation") as [->|H1].
    { destruct t; cbn; split; congruence. }
    destruct (String.eqb_spec s "translation") as [->|H2].
    { destruct t; cbn; split; congruence. }
    destruct t; cbn; split; congruence.
  - intros Hhint. unfold resolve_task_type. rewrite Hhint.
    destruct t; reflexivity.
Qed.

Lemma prompt_part_unknown msg : known_role msg = false → prompt_part msg = None.
Proof.
  unfold known_role, prompt_part.
  destruct (String.eqb (role msg) "system"); [discriminate|].
  destruct (String.eqb (role msg) "user"); [discriminate|].
  destruct (String.eqb (role msg) "assistant"); [discriminate|].
  reflexivity.
Qed.

Lemma omap_prompt_part_known messages :
  omap prompt_part (List.filter known_role messages) = omap prompt_part messages.
Proof.
  induction messages as [|msg rest IH]; [reflexivity|].
  cbn [List.filter]. destruct (known_role msg) eqn:E;
    cbn -[prompt_part known_role].
  - rewrite IH. reflexivity.
  - rewrite (prompt_part_unknown msg E). exact IH.
Qed.

(** X15. Messages whose role is not system, user or assistant do
    not reach the prompt; with no other message the prompt is the bare
    assistant header. *)
Theorem format_prompt_skips_unknown_roles messages :
  format_prompt messages = format_prompt (List.filter known_role messages)
  ∧ (List.filter known_role messages = [] →
     format_prompt messages = "<|im_start|>assistant" +:+ newline).
Proof.
  assert (format_prompt messages
          = format_prompt (List.filter known_role messages)) as H.
  { unfold format_prompt. rewrite omap_prompt_part_known. reflexivity. }
  split; [exact H|]. intros Hnone. rewrite H, Hnone. reflexivity.
Qed.

(** ** Status and health *)

Lemma ModelState_value_loaded st : ModelState_value st = "loaded" → st = LOADED.
Proof. destruct st; cbn; congruence. Qed.

(** X16. In every reachable world [get_status] counts two registered
    models, reports a state for exactly the two registered keys, and a
    key it reports as loaded is the current model it reports. *)
Theorem status_is_consistent vram w :
  reachable w →
  st_models_registered (get_status vram (mgr w)) = 2%Z
  ∧ dom (st_model_states (get_status vram (mgr w)))
    = ({["content_transformation"; "translation"]} : gset string)
  ∧ ∀ k, st_model_states (get_status vram (mgr w)) !! k = Some "loaded" →
         st_current_model (get_status vram (mgr w)) = Some k.
Proof.
  intros Hr. destruct (reachable_well_formed w Hr) as [_ [Hms Hdom]].
  destruct (reachable_residency_ok w Hr) as [Hl _ _].
  unfold get_status. cbn. split; [rewrite Hms; reflexivity|].
  split; [rewrite dom_fmap_L; exact Hdom|].
  intros k Hk. rewrite lookup_fmap in Hk.
  destruct (model_states (mgr w) !! k) as [st|] eqn:Hst; [|discriminate].
  cbn in Hk. injection Hk as Hk. apply ModelState_value_loaded in Hk. subst st.
  apply Hl. exact Hst.
Qed.

(** X17. In every reachable world the health check answers 200
    exactly when the manager holds an engine handle and the available
    VRAM exceeds 2 GB; the state of the model plays no part. *)
Theorem health_tracks_engine vram w :
  reachable w →
  h_status_code (health_check vram (mgr w)) = 200%Z
  ↔ vllm_engine (mgr w) ≠ None ∧ (2 < vram)%Q.
Proof.
  intros Hr. pose proof (engine_follows_current w Hr) as Heng.
  unfold health_check, get_status. cbn.
  assert (negb (Qle_bool vram 2) = true ↔ (2 < vram)%Q) as Hq.
  { rewrite negb_true_iff. split.
    - intros Hle. apply Qnot_le_lt. intros H. apply Qle_bool_iff in H. congruence.
    - intros Hlt. destruct (Qle_bool vram 2) eqn:E; [|reflexivity].
      apply Qle_bool_iff in E. apply Qlt_not_le in Hlt. contradiction. }
  destruct (current_model (mgr w)) as [key|].
  - destruct Heng as (cfg & env & _ & ->).
    rewrite bool_decide_eq_true_2 by discriminate. cbn [andb].
    destruct (negb (Qle_bool vram 2)); split.
    + intros _. split; [discriminate | apply Hq; reflexivity].
    + reflexivity.
    + discriminate.
    + intros [_ H]. apply Hq in H. discriminate.
  - rewrite Heng, bool_decide_eq_false_2 by (intros H; apply H; reflexivity).
    cbn [andb]. split; [discriminate | intros [H _]; congruence].
Qed.

(** ** The classifier on joined messages *)

Lemma prefix_before_space kw y r :
  has_space kw = false →
  String.prefix kw (y +:+ String " " r) = String.prefix kw y.
Proof.
  revert kw. induction y as [|b y IH]; intros kw Hkw.
  - rewrite append_nil. destruct kw as [|a kw]; [reflexivity|].
    cbn in Hkw. apply orb_false_iff in Hkw as [Ha _].
    simpl. destruct (ascii_dec a " ") as [->|_]; [discriminate Ha | reflexivity].
  - rewrite append_cons. destruct kw as [|a kw]; [reflexivity|].
    cbn in Hkw. apply orb_false_iff in Hkw as [_ Hkw].
    simpl. destruct (ascii_dec a b); [apply IH, Hkw | reflexivity].
Qed.

Lemma str_in_empty kw : kw ≠ "" → str_in kw "" = false.
Proof. destruct kw; [congruence | reflexivity]. Qed.

Lemma str_in_around_space kw x r :
  plain_keyword kw = true →
  str_in kw (x +:+ String " " r) = str_in kw x || str_in kw r.
Proof.
  unfold plain_keyword. rewrite andb_true_iff, !negb_true_iff, String.eqb_neq.
  intros [Hne Hsp]. induction x as [|c x IH].
  - rewrite append_nil, (str_in_empty kw Hne). cbn [str_in orb].
    pose proof (prefix_before_space kw "" r Hsp) as Hp.
    rewrite append_nil in Hp. rewrite Hp.
    destruct kw; [congruence | reflexivity].
  - rewrite append_cons.
    change (str_in kw (String c (x +:+ String " " r)))
      with (String.prefix kw (String c (x +:+ String " " r))
            || str_in kw (x +:+ String " " r)).
    change (str_in kw (String c x))
      with (String.prefix kw (String c x) || str_in kw x).
    rewrite IH, <- append_cons, (prefix_before_space kw (String c x) r Hsp).
    rewrite orb_assoc. reflexivity.
Qed.

Lemma str_in_joined kw parts :
  plain_keyword kw = true →
  str_in kw (String.concat " " parts) = existsb (str_in kw) parts.
Proof.
  intros Hkw. induction parts as [|x parts IH].
  - cbn. apply str_in_empty. unfold plain_keyword in Hkw.
    apply andb_true_iff in Hkw as [Hne _].
    apply negb_true_iff, String.eqb_neq in Hne. exact Hne.
  - destruct parts as [|y parts].
    + cbn [String.concat existsb]. rewrite orb_false_r. reflexivity.
    + change (String.concat " " (x :: y :: parts))
        with (x +:+ String " " (String.concat " " (y :: parts))).
      rewrite (str_in_around_space kw x _ Hkw), IH. reflexivity.
Qed.

Lemma keywords_are_plain :
  forallb plain_keyword (content_keywords ++ translation_keywords) = true.
Proof. vm_compute. reflexivity. Qed.

Lemma existsb_same_elements {A} (f : A → bool) (l l' : list A) :
  (∀ x, x ∈ l ↔ x ∈ l') → existsb f l = existsb f l'.
Proof.
  intros Hsame. apply eq_true_iff_eq. rewrite !existsb_exists.
  split; intros (x & Hin & Hf); exists x; (split; [|exact Hf]);
    apply list_elem_of_In; apply list_elem_of_In in Hin; apply Hsame; exact Hin.
Qed.

Lemma keyword_score_same_parts keywords parts parts' :
  forallb plain_keyword keywords = true →
  (∀ s, s ∈ parts ↔ s ∈ parts') →
  keyword_score keywords (String.concat " " parts)
  = keyword_score keywords (String.concat " " parts').
Proof.
  intros Hplain Hsame. induction keywords as [|kw rest IH]; [reflexivity|].
  cbn [forallb] in Hplain. apply andb_true_iff in Hplain as [Hkw Hrest].
  cbn [keyword_score]. rewrite !(str_in_joined kw _ Hkw), (IH Hrest).
  rewrite (existsb_same_elements (str_in kw) parts parts' Hsame). reflexivity.
Qed.

(** X18. The classifier's answer depends only on which texts occur
    as message contents: order, repetition and roles of the messages
    do not matter. *)
Theorem classifier_reads_a_set_of_texts lower messages messages' :
  (∀ s, s ∈ map content messages ↔ s ∈ map content messages') →
  determine_task_type_from_messages lower messages
  = determine_task_type_from_messages lower messages'.
Proof.
  intros Hsame.
  assert (∀ s, s ∈ map (λ msg, lower (content msg)) messages
             ↔ s ∈ map (λ msg, lower (content msg)) messages') as Hlow.
  { intros s. rewrite <- !(map_map content lower), !list_elem_of_fmap.
    split; intros (c & -> & Hc); exists c; (split; [reflexivity|]);
      apply Hsame; exact Hc. }
  pose proof keywords_are_plain as Hplain.
  rewrite forallb_app in Hplain. apply andb_true_iff in Hplain as [Hc Ht].
  unfold determine_task_type_from_messages, combined_text.
  rewrite (keyword_score_same_parts content_keywords _ _ Hc Hlow).
  rewrite (keyword_score_same_parts translation_keywords _ _ Ht Hlow).
  reflexivity.
Qed.

Lemma keyword_score_nonneg keywords text : (0 ≤ keyword_score keywords text)%Z.
Proof.
  induction keywords as [|kw rest IH]; cbn [keyword_score]; [lia|].
  destruct (str_in kw text); lia.
Qed.

Lemma keyword_score_positive keywords text :
  (0 < keyword_score keywords text)%Z →
  ∃ kw, kw ∈ keywords ∧ str_in kw text = true.
Proof.
  induction keywords as [|kw rest IH]; cbn [keyword_score]; [lia|].
  destruct (str_in kw text) eqn:E.
  - intros _. exists kw. split; [left | exact E].
  - intros H. destruct IH as (kw' & Hin & Hkw'); [lia|].
    exists kw'. split; [right; exact Hin | exact Hkw'].
Qed.

(** X19. The classifier answers [TRANSLATION] only if some message,
    lower-cased, contains a translation keyword; a keyword split over
    two messages does not count. *)
Theorem translation_needs_a_keyword lower messages :
  determine_task_type_from_messages lower messages = TRANSLATION →
  ∃ kw msg, kw ∈ translation_keywords ∧ msg ∈ messages
          ∧ occurs kw (lower (content msg)).
Proof.
  unfold determine_task_type_from_messages, combined_text.
  set (text := String.concat " " (map (λ msg, lower (content msg)) messages)).
  destruct (Z.ltb_spec (keyword_score content_keywords text)
              (keyword_score translation_keywords text))
    as [Hlt|]; [intros _ | discriminate].
  pose proof (keyword_score_nonneg content_keywords text).
  destruct (keyword_score_positive translation_keywords text) as (kw & Hin & Hkw);
    [lia|].
  pose proof keywords_are_plain as Hplain.
  rewrite forallb_app in Hplain. apply andb_true_iff in Hplain as [_ Ht].
  rewrite forallb_forall in Ht.
  unfold text in Hkw.
  rewrite str_in_joined in Hkw by (apply Ht, list_elem_of_In, Hin).
  apply existsb_exists in Hkw as (part & Hpart & Hocc).
  apply list_elem_of_In, list_elem_of_fmap in Hpart as (msg & -> & Hmsg).
  exists kw, msg. split; [exact Hin|]. split; [exact Hmsg|].
  apply str_in_occurs, Hocc.
Qed.

Lemma translation_needs_a_keyword_witness :
  ∃ kw msg, kw ∈ translation_keywords
          ∧ msg ∈ [user_says "Hello"; user_says "Translate, please"]
          ∧ occurs kw (ascii_lower (content msg)).
Proof.
  apply (translation_needs_a_keyword ascii_lower
           [user_says "Hello"; user_says "Translate, please"]).
  vm_compute. reflexivity.
Defined.

(** ** Instances *)

Lemma held_lock_freezes_manager_witness :
  lock_held (mgr wedged) = true
  ∧ world_of (run_call no_faults CallUnload wedged) = wedged.
Proof.
  split; [vm_compute; reflexivity|].
  apply (held_lock_freezes_manager no_faults CallUnload wedged).
  vm_compute. reflexivity.
Defined.

Lemma swap_always_blocks_witness :
  load_model ctor_fails "translation" after_startup
  = Blocked (swap_point "translation" after_startup)
  ∧ ensure_model_loaded ctor_fails TRANSLATION after_startup
    = Blocked (swap_point "translation" after_startup).
Proof.
  apply (swap_always_blocks ctor_fails after_startup "content_transformation"
           "translation" translation_model TRANSLATION);
    [reflexivity | reflexivity | discriminate | discriminate | reflexivity
    | reflexivity | discriminate].
Defined.

Lemma successful_call_repeats_witness :
  run_call release_fails CallUnload
    (world_of (run_call no_faults CallUnload after_startup))
  = Ok true (world_of (run_call no_faults CallUnload after_startup)).
Proof.
  apply (successful_call_repeats no_faults release_fails CallUnload
           after_startup).
  vm_compute. reflexivity.
Defined.

Lemma failed_load_evicts_nothing_witness :
  let w1 := world_of (load_model ctor_fails "content_transformation"
                        half_unloaded) in
  current_model (mgr w1) = current_model (mgr half_unloaded)
  ∧ vllm_engine (mgr w1) = vllm_engine (mgr half_unloaded)
  ∧ (∀ k, k ≠ "content_transformation" →
       model_states (mgr w1) !! k = model_states (mgr half_unloaded) !! k)
  ∧ (is_Some (lookup_model "content_transformation"
                (models (mgr half_unloaded))) →
     model_states (mgr w1) !! "content_transformation" = Some ERROR).
Proof.
  apply (failed_load_evicts_nothing ctor_fails "content_transformation"
           half_unloaded).
  vm_compute. reflexivity.
Defined.

Lemma swapped_over_reachable : reachable swapped_over.
Proof. unfold swapped_over. repeat apply reach_call. apply reach_init. Qed.

Lemma engine_follows_current_witness :
  reachable swapped_over
  ∧ match current_model (mgr swapped_over) with
    | None => vllm_engine (mgr swapped_over) = None
    | Some key =>
        ∃ cfg env, lookup_model key registered_models = Some cfg
                   ∧ vllm_engine (mgr swapped_over) = Some (engine_args env cfg)
    end.
Proof.
  split; [exact swapped_over_reachable|].
  exact (engine_follows_current swapped_over swapped_over_reachable).
Defined.

Lemma list_models_reports_registry_witness :
  reachable swapped_over
  ∧ ∃ st_c st_t,
      model_states (mgr swapped_over) !! "content_transformation" = Some st_c
      ∧ model_states (mgr swapped_over) !! "translation" = Some st_t
      ∧ list_models swapped_over
        = Ok [model_card "content_transformation" content_model st_c;
              model_card "translation" translation_model st_t] swapped_over
      ∧ ¬ (st_c = LOADED ∧ st_t = LOADED).
Proof.
  split; [exact swapped_over_reachable|].
  exact (list_models_reports_registry swapped_over swapped_over_reachable).
Defined.

Lemma ensure_success_has_engine_witness :
  ∃ key cfg env0,
    find_model_key TRANSLATION registered_models = Some key
    ∧ lookup_model key registered_models = Some cfg
    ∧ task_type cfg = TRANSLATION
    ∧ current_model
        (mgr (world_of (ensure_model_loaded no_faults TRANSLATION init_world)))
      = Some key
    ∧ loaded
        (mgr (world_of (ensure_model_loaded no_faults TRANSLATION init_world)))
        key
    ∧ vllm_engine
        (mgr (world_of (ensure_model_loaded no_faults TRANSLATION init_world)))
      = Some (engine_args env0 cfg).
Proof.
  apply (ensure_success_has_engine no_faults TRANSLATION init_world
           (world_of (ensure_model_loaded no_faults TRANSLATION init_world))).
  - apply reach_init.
  - vm_compute. reflexivity.
Defined.

Lemma shutdown_releases_engine_witness :
  ∃ w', lifespan_shutdown no_faults after_startup = Ok tt w'
      ∧ current_model (mgr w') = None
      ∧ vllm_engine (mgr w') = None
      ∧ ∀ k, ¬ loaded (mgr w') k.
Proof.
  apply (shutdown_releases_engine no_faults after_startup).
  - apply (reach_call init_world no_faults (CallLoad "content_transformation")).
    apply reach_init.
  - vm_compute. reflexivity.
  - reflexivity.
Defined.

Lemma status_is_consistent_witness :
  reachable swapped_over
  ∧ st_models_registered (get_status (95 # 2) (mgr swapped_over)) = 2%Z
  ∧ dom (st_model_states (get_status (95 # 2) (mgr swapped_over)))
    = ({["content_transformation"; "translation"]} : gset string)
  ∧ ∀ k, st_model_states (get_status (95 # 2) (mgr swapped_over)) !! k
         = Some "loaded" →
         st_current_model (get_status (95 # 2) (mgr swapped_over)) = Some k.
Proof.
  split; [exact swapped_over_reachable|].
  exact (status_is_consistent (95 # 2) swapped_over swapped_over_reachable).
Defined.

Lemma half_unloaded_reachable : reachable half_unloaded.
Proof.
  apply (reach_call after_startup release_fails CallUnload).
  apply (reach_call init_world no_faults (CallLoad "content_transformation")).
  apply reach_init.
Qed.

Lemma health_tracks_engine_witness :
  reachable half_unloaded
  ∧ model_states (mgr half_unloaded) !! "content_transformation"
    = Some UNLOADING
  ∧ (h_status_code (health_check (95 # 2) (mgr half_unloaded)) = 200%Z
     ↔ vllm_engine (mgr half_unloaded) ≠ None ∧ (2 < 95 # 2)%Q).
Proof.
  split; [exact half_unloaded_reachable|].
  split; [vm_compute; reflexivity|].
  exact (health_tracks_engine (95 # 2) half_unloaded half_unloaded_reachable).
Defined.

Lemma classifier_reads_a_set_of_texts_witness :
  determine_task_type_from_messages ascii_lower
    [user_says "Translate the PDF"; user_says "into English"]
  = determine_task_type_from_messages ascii_lower
      [{| role := "system"; content := "into English" |};
       user_says "Translate the PDF"; user_says "into English"].
Proof.
  apply (classifier_reads_a_set_of_texts ascii_lower
           [user_says "Translate the PDF"; user_says "into English"]
           [{| role := "system"; content := "into English" |};
            user_says "Translate the PDF"; user_says "into English"]).
  intros s. cbn. rewrite !elem_of_cons. tauto.
Defined.
